(** * homework_bot: the poll / evaluate / notify loop of [homework.py]

    A shallow embedding of [homework.py].  Decoded JSON is a value of
    [json]; a raised exception is the [Err] branch of [result]; the loop of
    [main] threads its three local variables ([locals]) and the outside
    world ([world]: clock, HTTP endpoint, Telegram endpoint, console)
    through a small state-and-exception monad [M]. *)

From Stdlib Require Import ZArith String Ascii.
From Stdlib Require Import Floats.SpecFloat.
From stdpp Require Import base option list strings gmap pretty.

Set Warnings "-register-all".

Local Open Scope string_scope.
Local Open Scope Z_scope.

(** ** Decoded JSON values

    What [requests.Response.json()] returns: [None], [bool], [int],
    [float], [str], [list] and [dict] with [str] keys. *)

Inductive json : Type :=
  | JNull
  | JBool (b : bool)
  | JInt (n : Z)
  | JFloat (f : spec_float)
  | JStr (s : string)
  | JList (l : list json)
  | JDict (d : gmap string json).

(** [type(v).__name__] *)
Definition type_name (v : json) : string :=
  match v with
  | JNull => "NoneType"
  | JBool _ => "bool"
  | JInt _ => "int"
  | JFloat _ => "float"
  | JStr _ => "str"
  | JList _ => "list"
  | JDict _ => "dict"
  end.

(** [bool(v)]: the truth value used by [or]. *)
Definition truthy (v : json) : bool :=
  match v with
  | JNull => false
  | JBool b => b
  | JInt n => negb (n =? 0)
  | JFloat (S754_zero _) => false
  | JFloat _ => true
  | JStr s => negb (String.eqb s "")
  | JList l => match l with [] => false | _ :: _ => true end
  | JDict d => match map_to_list d with [] => false | _ :: _ => true end
  end.

(** ['needle' == v] for a [str] on the left. *)
Definition str_eq (needle : string) (v : json) : bool :=
  match v with
  | JStr s => String.eqb needle s
  | _ => false
  end.

(** [needle in s] for two [str]: substring search. *)
Fixpoint substring_of (needle s : string) : bool :=
  String.prefix needle s ||
  match s with
  | EmptyString => false
  | String _ s' => substring_of needle s'
  end.

(** [s[0]] for a non-empty [str]: a [string] holds the UTF-8 bytes of the
    text, so the first character is the first byte and the continuation
    bytes (10xxxxxx) that follow it. *)
Definition is_continuation (c : ascii) : bool :=
  let n := nat_of_ascii c in (128 <=? n)%nat && (n <? 192)%nat.

Fixpoint continuation_bytes (s : string) : string :=
  match s with
  | String c s' =>
      if is_continuation c then String c (continuation_bytes s') else EmptyString
  | EmptyString => EmptyString
  end.

Definition first_char (c : ascii) (rest : string) : string :=
  String c (continuation_bytes rest).

(** ** Exceptions *)

(** The exception classes that occur.  [PyException] is the builtin class
    [Exception] itself; [SystemExit] is the one class here that is not a
    subclass of [Exception]; [InvalidToken] is the [TelegramError] with which
    [telegram.Bot] refuses a token. *)
Inductive exc_class : Type :=
  | PyException
  | KeyError
  | ValueError
  | TypeError
  | IndexError
  | AttributeError
  | SystemExit
  | APIerrorException
  | SendMessageException
  | InvalidToken.

(** Modelled from the spec: the module [exceptions] that declares
    [APIerrorException] and [SendMessageException] is not part of the
    sources.  The spec lists the fetch error and the delivery error among the
    errors that the generic boundary of the cycle catches, so both are
    subclasses of [Exception], and their description is the message they were
    built with. *)
Definition is_Exception (c : exc_class) : bool :=
  match c with
  | SystemExit => false
  | _ => true
  end.

(** A raised exception: its class and [str(error)]. *)
Record exn : Type := Raise { exc : exc_class; description : string }.

Inductive result (A : Type) : Type :=
  | Ok (a : A)
  | Err (e : exn).
Arguments Ok {A} a.
Arguments Err {A} e.

#[global] Instance result_ret : MRet result := λ A a, Ok a.
#[global] Instance result_bind : MBind result := λ A B k r,
  match r with
  | Ok a => k a
  | Err e => Err e
  end.

(** One double quote, and a text between double quotes. *)
Definition dq : string := String "034"%char EmptyString.
Definition quoted (s : string) : string := dq ++ s ++ dq.
Definition sq (s : string) : string := "'" ++ s ++ "'".

Section Bot.

(** [repr] of the interpreter on decoded JSON.  The sources never define it;
    it only enters the text of three messages. *)
Variable py_repr : json → string.

(** [str(v)], as an f-string renders [{v}]. *)
Definition py_str (v : json) : string :=
  match v with
  | JStr s => s
  | _ => py_repr v
  end.

(** [container[key]] with a [str] key.  The texts of the interpreter's own
    errors are those of CPython 3.9. *)
Definition getitem_str (container : json) (key : string) : result json :=
  match container with
  | JDict d =>
      match d !! key with
      | Some v => Ok v
      | None => Err (Raise KeyError (sq key))
      end
  | JList _ =>
      Err (Raise TypeError "list indices must be integers or slices, not str")
  | JStr _ => Err (Raise TypeError "string indices must be integers")
  | _ =>
      Err (Raise TypeError (sq (type_name container) ++ " object is not subscriptable"))
  end.

(** [container[0]] *)
Definition getitem_0 (container : json) : result json :=
  match container with
  | JList l =>
      match l !! 0%nat with
      | Some v => Ok v
      | None => Err (Raise IndexError "list index out of range")
      end
  | JStr s =>
      match s with
      | String c rest => Ok (JStr (first_char c rest))
      | EmptyString => Err (Raise IndexError "string index out of range")
      end
  | JDict _ => Err (Raise KeyError "0")
  | _ =>
      Err (Raise TypeError (sq (type_name container) ++ " object is not subscriptable"))
  end.

(** ['key' in container] *)
Definition contains_str (key : string) (container : json) : result bool :=
  match container with
  | JDict d => Ok (bool_decide (is_Some (d !! key)))
  | JList l => Ok (existsb (str_eq key) l)
  | JStr s => Ok (substring_of key s)
  | _ =>
      Err (Raise TypeError
             ("argument of type " ++ sq (type_name container) ++ " is not iterable"))
  end.

(** [v == []] *)
Definition is_empty_list (v : json) : bool :=
  match v with
  | JList [] => true
  | _ => false
  end.

Definition is_None (v : json) : bool :=
  match v with JNull => true | _ => false end.

(** [isinstance(v, dict)] *)
Definition is_dict (v : json) : bool :=
  match v with JDict _ => true | _ => false end.

(** ** Module constants *)

Definition RETRY_TIME : Z := 600.

Definition ENDPOINT : string :=
  "https://practicum.yandex.ru/api/user_api/homework_statuses/".

Definition HOMEWORK_STATUSES : gmap string string :=
  {[ "approved" := "Работа проверена: ревьюеру всё понравилось. Ура!";
     "reviewing" := "Работа взята на проверку ревьюером.";
     "rejected" := "Работа проверена: у ревьюера есть замечания." ]}.

(** ** [check_response] *)

Definition empty_list_error : exn :=
  Raise TypeError "От API получен пустой список проверяемых работ.".

Definition missing_homeworks_error : exn :=
  Raise ValueError ("В ответе на запрос отсутствует ключ " ++ quoted "homeworks").

Definition no_homework_error : exn :=
  Raise ValueError "Нет списка проверяемых работ.".

Definition not_a_dict_error (homework : json) : exn :=
  Raise TypeError ("Ошибка типа данных! " ++ py_str homework ++ " не словарь!").

Definition check_response (response : json) : result json :=
  hw ← getitem_str response "homeworks";
  if is_empty_list hw then Err empty_list_error else
  present ← contains_str "homeworks" response;
  if negb present then Err missing_homeworks_error else
  homework ← getitem_str response "homeworks";
  first ← getitem_0 homework;
  if is_None first then Err no_homework_error else
  first ← getitem_0 homework;
  if negb (is_dict first) then Err (not_a_dict_error homework)
  else Ok homework.

(** ** [parse_status] *)

Definition missing_name_error : exn :=
  Raise KeyError (sq ("Отсутствует ключ " ++ quoted "homework_name" ++ " в ответе API")).

Definition missing_status_error : exn :=
  Raise PyException ("Отсутствует ключ " ++ quoted "status" ++ " в ответе API").

Definition unknown_status_error (homework_status : json) : exn :=
  Raise PyException ("Неизвестный статус работы: " ++ py_str homework_status).

(** [key in HOMEWORK_STATUSES]: a [list] or a [dict] cannot be hashed;
    another value that is not a [str] is no key of the table. *)
Definition in_statuses (key : json) : result bool :=
  match key with
  | JStr s => Ok (bool_decide (is_Some (HOMEWORK_STATUSES !! s)))
  | JList _ | JDict _ =>
      Err (Raise TypeError ("unhashable type: " ++ sq (type_name key)))
  | _ => Ok false
  end.

(** [HOMEWORK_STATUSES[key]] *)
Definition statuses_getitem (key : json) : result string :=
  match key with
  | JStr s =>
      match HOMEWORK_STATUSES !! s with
      | Some verdict => Ok verdict
      | None => Err (Raise KeyError (py_repr key))
      end
  | JList _ | JDict _ =>
      Err (Raise TypeError ("unhashable type: " ++ sq (type_name key)))
  | _ => Err (Raise KeyError (py_repr key))
  end.

Definition status_text (homework_name : json) (verdict : string) : string :=
  "Изменился статус проверки работы " ++ quoted (py_str homework_name)
    ++ ". " ++ verdict.

Definition parse_status (homework : json) : result string :=
  has_name ← contains_str "homework_name" homework;
  if negb has_name then Err missing_name_error else
  has_status ← contains_str "status" homework;
  if negb has_status then Err missing_status_error else
  homework_name ← getitem_str homework "homework_name";
  homework_status ← getitem_str homework "status";
  known ← in_statuses homework_status;
  if negb known then Err (unknown_status_error homework_status) else
  verdict ← statuses_getitem homework_status;
  Ok (status_text homework_name verdict).

(** ** The outside world *)

(** What [requests.get] does: it raises a [RequestException] with the given
    description, or returns a response with a status code whose body decodes
    to a JSON value ([Some]) or does not ([None]). *)
Inductive http_outcome : Type :=
  | RequestException (error : string)
  | Response (status_code : Z) (body : option json).

Inductive log_level : Type := DEBUG | INFO | ERROR | CRITICAL.

(** What the program does to the world, in the order it does it. *)
Inductive event : Type :=
  | EGet (url : string) (authorization : string) (from_date : json)
  | ESend (chat_id : option string) (text : string) (delivered : bool)
  | ESleep (secs : Z)
  | ELog (level : log_level) (text : string).

(** The world answers the k-th call of [time.time], of [requests.get] and of
    [bot.send_message] ([false]: a [TelegramError] is raised); it counts the
    calls made so far and keeps the events, the latest first. *)
Record world : Type := World {
  time_time : nat → Z;
  requests_get : nat → http_outcome;
  bot_send_message : nat → bool;
  clock_reads : nat;
  requests_made : nat;
  sends_made : nat;
  events : list event
}.

Definition emit (ev : event) (w : world) : world :=
  World (time_time w) (requests_get w) (bot_send_message w)
        (clock_reads w) (requests_made w) (sends_made w) (ev :: events w).

Definition tick_clock (w : world) : world :=
  World (time_time w) (requests_get w) (bot_send_message w)
        (S (clock_reads w)) (requests_made w) (sends_made w) (events w).

Definition tick_request (w : world) : world :=
  World (time_time w) (requests_get w) (bot_send_message w)
        (clock_reads w) (S (requests_made w)) (sends_made w) (events w).

Definition tick_send (w : world) : world :=
  World (time_time w) (requests_get w) (bot_send_message w)
        (clock_reads w) (requests_made w) (S (sends_made w)) (events w).

(** Code outside [main]: it acts on the world and may raise. *)
Definition IO (A : Type) : Type := world → result A * world.

#[global] Instance IO_ret : MRet IO := λ A a w, (Ok a, w).
#[global] Instance IO_bind : MBind IO := λ A B k m w,
  match m w with
  | (Ok a, w') => k a w'
  | (Err e, w') => (Err e, w')
  end.

Definition io_raise {A} (e : exn) : IO A := λ w, (Err e, w).
Definition io_eval {A} (r : result A) : IO A := λ w, (r, w).
Definition io_emit (ev : event) : IO unit := λ w, (Ok tt, emit ev w).

Definition logger (level : log_level) (text : string) : IO unit :=
  io_emit (ELog level text).

(** [int(time.time())] *)
Definition int_time : IO Z := λ w,
  (Ok (time_time w (clock_reads w)), tick_clock w).

(** [time.sleep(secs)] *)
Definition time_sleep (secs : Z) : IO unit := io_emit (ESleep secs).

(** ** Configuration read from the environment: [os.getenv] gives [None] or
    a [str]. *)
Variable PRACTICUM_TOKEN TELEGRAM_TOKEN TELEGRAM_CHAT_ID : option string.

(** [telegram.Bot(token=TELEGRAM_TOKEN)]: with the configured token the
    library builds the bot or raises (a malformed token is refused with
    [InvalidToken]).  How it judges a token is the library's business, not
    the sources'. *)
Variable telegram_Bot : result unit.

(** [f'{token}'] *)
Definition token_str (token : option string) : string :=
  match token with
  | Some s => s
  | None => "None"
  end.

(** [bool(token)] *)
Definition token_set (token : option string) : bool :=
  match token with
  | Some s => negb (String.eqb s "")
  | None => false
  end.

(** ** [send_message] *)

Definition send_error : exn :=
  Raise SendMessageException "Ошибка отправки сообщения".

(** [bot.send_message(TELEGRAM_CHAT_ID, message)]: [true] when delivered,
    [false] when a [TelegramError] is raised. *)
Definition telegram_send (message : string) : IO bool := λ w,
  let ok := bot_send_message w (sends_made w) in
  (Ok ok, emit (ESend TELEGRAM_CHAT_ID message ok) (tick_send w)).

Definition send_message (bot : unit) (message : string) : IO unit :=
  logger INFO "Попытка отправки сообщения";;
  delivered ← telegram_send message;
  if delivered : bool then logger INFO "Сообщение в чат отправлено"
  else io_raise send_error.

(** ** [get_api_answer] *)

Definition api_error (error : string) : exn :=
  Raise APIerrorException ("Ошибка при запросе к API: " ++ error).

Definition http_status_error (status_code : Z) : exn :=
  Raise PyException ("Ошибка " ++ pretty status_code).

(** [json.JSONDecodeError('...')] with one argument where the constructor
    takes three: the [raise] of the last line ends in this [TypeError]. *)
Definition decode_error : exn :=
  Raise TypeError
    "__init__() missing 2 required positional arguments: 'doc' and 'pos'".

(** [requests.get(ENDPOINT, headers=..., params={'from_date': timestamp})] *)
Definition http_get (timestamp : json) : IO http_outcome := λ w,
  (Ok (requests_get w (requests_made w)),
   emit (EGet ENDPOINT ("OAuth " ++ token_str PRACTICUM_TOKEN) timestamp)
        (tick_request w)).

Definition get_api_answer (current_timestamp : json) : IO json :=
  timestamp ← (if truthy current_timestamp then mret current_timestamp
               else now ← int_time; mret (JInt now));
  homework_statuses ← http_get timestamp;
  match homework_statuses with
  | RequestException error => io_raise (api_error error)
  | Response status_code body =>
      if negb (status_code =? 200) then io_raise (http_status_error status_code)
      else match body with
           | Some v => mret v
           | None => io_raise decode_error
           end
  end.

(** ** [check_tokens] *)

Definition check_tokens : bool :=
  forallb token_set [PRACTICUM_TOKEN; TELEGRAM_TOKEN; TELEGRAM_CHAT_ID].

(** ** [main] *)

(** The local variables of [main] that the loop reads and assigns. *)
Record locals : Type := Locals {
  current_timestamp : json;
  status_message : string;
  error_message : string
}.

Definition set_current_timestamp (v : json) (st : locals) : locals :=
  Locals v (status_message st) (error_message st).
Definition set_status_message (s : string) (st : locals) : locals :=
  Locals (current_timestamp st) s (error_message st).
Definition set_error_message (s : string) (st : locals) : locals :=
  Locals (current_timestamp st) (status_message st) s.

(** The body of [main]: it reads and assigns the locals, acts on the world
    and may raise. *)
Definition M (A : Type) : Type := locals → world → result A * locals * world.

#[global] Instance M_ret : MRet M := λ A a st w, (Ok a, st, w).
#[global] Instance M_bind : MBind M := λ A B k m st w,
  match m st w with
  | (Ok a, st', w') => k a st' w'
  | (Err e, st', w') => (Err e, st', w')
  end.

Definition call {A} (m : IO A) : M A := λ st w,
  let '(r, w') := m w in (r, st, w').
Definition eval {A} (r : result A) : M A := λ st w, (r, st, w).
Definition read {A} (var : locals → A) : M A := λ st w, (Ok (var st), st, w).
Definition assign (upd : locals → locals) : M unit := λ st w, (Ok tt, upd st, w).

(** [try: body except Exception as error: handler(error)] *)
Definition try_except {A} (body : M A) (handler : exn → M A) : M A := λ st w,
  match body st w with
  | (Err error, st', w') =>
      if is_Exception (exc error) then handler error st' w'
      else (Err error, st', w')
  | done => done
  end.

(** [try: body finally: final]: [final] runs on every exit of [body]; an
    exception that left [body] is raised again after it. *)
Definition try_finally {A} (body : M A) (final : M unit) : M A := λ st w,
  match body st w with
  | (r, st', w') =>
      match final st' w' with
      | (Ok _, st'', w'') => (r, st'', w'')
      | (Err e, st'', w'') => (Err e, st'', w'')
      end
  end.

(** [response.get('current_date')] *)
Definition dict_get (response : json) (key : string) : result json :=
  match response with
  | JDict d => Ok (default JNull (d !! key))
  | _ =>
      Err (Raise AttributeError
             (sq (type_name response) ++ " object has no attribute 'get'"))
  end.

Definition failure_message (error : exn) : string :=
  "Сбой в работе программы: " ++ description error.

Definition unchanged_info : string :=
  "Статус не изменился. Ждем еще " ++ pretty RETRY_TIME ++ " сек.".

(** The first three statements of the [try] block: fetch, move the cursor,
    validate and format. *)
Definition poll : M string :=
  ts ← read current_timestamp;
  response ← call (get_api_answer ts);
  current_date ← eval (dict_get response "current_date");
  assign (set_current_timestamp current_date);;
  homework ← eval (check_response response);
  eval (parse_status homework).

(** The [if status != status_message] statement that ends the [try] block. *)
Definition report (bot : unit) (status : string) : M unit :=
  last ← read status_message;
  if negb (String.eqb status last) then
    call (send_message bot status);;
    assign (set_status_message status)
  else
    call (logger DEBUG unchanged_info).

Definition try_block (bot : unit) : M unit :=
  status ← poll;
  report bot status.

Definition except_block (bot : unit) (error : exn) : M unit :=
  call (logger ERROR (description error));;
  let message := failure_message error in
  last ← read error_message;
  if negb (String.eqb message last) then
    call (send_message bot message);;
    assign (set_error_message message)
  else mret tt.

Definition finally_block : M unit := call (time_sleep RETRY_TIME).

(** The [try] statement of the loop around a given [try] block. *)
Definition guarded (bot : unit) (body : M unit) : M unit :=
  try_finally (try_except body (except_block bot)) finally_block.

(** One pass through the body of [while True]. *)
Definition iteration (bot : unit) : M unit := guarded bot (try_block bot).

(** [while True]: as many passes as the fuel allows; an exception that
    leaves a pass leaves the loop. *)
Fixpoint while_true (fuel : nat) (bot : unit) : M unit :=
  match fuel with
  | O => mret tt
  | S fuel' => iteration bot;; while_true fuel' bot
  end.

Definition start_message : string := "Бот начал свою работу!".

(** The loop entered with the locals as [main] initialises them. *)
Definition enter_loop (fuel : nat) (bot : unit) (now : Z) : IO unit := λ w,
  let '(r, _, w') := while_true fuel bot (Locals (JInt now) "" "") w in (r, w').

(** [bot = telegram.Bot(token=TELEGRAM_TOKEN)] either raises, which ends
    [main], or gives the handle that [send_message] is given; a built bot is
    [tt]. *)
Definition main (fuel : nat) : IO unit :=
  if negb check_tokens then
    logger CRITICAL "Отсутствуют токены";;
    io_raise (Raise SystemExit "1")
  else
    bot ← io_eval (telegram_Bot);
    send_message (bot : unit) start_message;;
    now ← int_time;
    enter_loop fuel bot (now : Z).

(** ** Vocabulary of the statements *)

(** The world after a call of [logger], of a delivered and of an undelivered
    [send_message], and after the sleep of the [finally] block. *)
Definition logged (level : log_level) (text : string) (w : world) : world :=
  emit (ELog level text) w.

Definition delivered (message : string) (w : world) : world :=
  logged INFO "Сообщение в чат отправлено"
    (emit (ESend TELEGRAM_CHAT_ID message true)
       (tick_send (logged INFO "Попытка отправки сообщения" w))).

Definition undelivered (message : string) (w : world) : world :=
  emit (ESend TELEGRAM_CHAT_ID message false)
    (tick_send (logged INFO "Попытка отправки сообщения" w)).

Definition slept (w : world) : world := emit (ESleep RETRY_TIME) w.

(** What [get_api_answer] makes of the outcome of [requests.get]. *)
Definition answer (outcome : http_outcome) : result json :=
  match outcome with
  | RequestException error => Err (api_error error)
  | Response status_code body =>
      if status_code =? 200 then
        match body with
        | Some v => Ok v
        | None => Err decode_error
        end
      else Err (http_status_error status_code)
  end.

(** The world after the request of [get_api_answer current_timestamp]: a
    cursor that counts as false makes it read the clock first. *)
Definition requested (current_timestamp : json) (w : world) : world :=
  if truthy current_timestamp then
    emit (EGet ENDPOINT ("OAuth " ++ token_str PRACTICUM_TOKEN)
               current_timestamp)
         (tick_request w)
  else
    emit (EGet ENDPOINT ("OAuth " ++ token_str PRACTICUM_TOKEN)
               (JInt (time_time w (clock_reads w))))
         (tick_request (tick_clock w)).

(** No exception of a class outside [Exception] comes out of [r]. *)
Definition catchable {A} (r : result A) : Prop :=
  match r with
  | Ok _ => True
  | Err e => is_Exception (exc e) = true
  end.

(** The [except] block followed by the [finally] block. *)
Definition handled (bot : unit) (error : exn) : M unit :=
  try_finally (except_block bot error) finally_block.

(** The texts handed to [bot.send_message], the first call first. *)
Definition sent_texts (w : world) : list string :=
  omap (λ ev, match ev with ESend _ text _ => Some text | _ => None end)
       (rev (events w)).

(** The [from_date] of the requests made, the first request first. *)
Definition from_dates (w : world) : list json :=
  omap (λ ev, match ev with EGet _ _ from_date => Some from_date | _ => None end)
       (rev (events w)).

(** ** Concrete inputs *)

Definition record_hw1 : json :=
  JDict {[ "homework_name" := JStr "hw1"; "status" := JStr "approved" ]}.

Definition payload_hw1 : json :=
  JDict {[ "homeworks" := JList [record_hw1]; "current_date" := JInt 1000 ]}.

Definition payload_undated : json :=
  JDict {[ "homeworks" := JList [record_hw1] ]}.

Definition hw1_text : string :=
  "Изменился статус проверки работы " ++ quoted "hw1"
    ++ ". Работа проверена: ревьюеру всё понравилось. Ура!".

(** The text that the specification expects for [record_hw1]. *)
Definition hw1_text_expected : string :=
  "Changed review status of " ++ quoted "hw1"
    ++ ". Работа проверена: ревьюеру всё понравилось. Ура!".

(** A [repr] to run the model with; no run below reaches a message that
    needs one. *)
Definition no_repr (v : json) : string := "<" ++ type_name v ++ ">".

(** A world that has done nothing yet. *)
Definition fresh_world (clock : nat → Z) (http : nat → http_outcome)
    (telegram : nat → bool) : world :=
  World clock http telegram 0 0 0 [].

(** The locals as [main] leaves them before the loop, started at [now]. *)
Definition started (now : Z) : locals := Locals (JInt now) "" "".

(** The endpoint always answers with the payload of one approved homework,
    and every message is delivered. *)
Definition world_hw1 : world :=
  fresh_world (λ _, 5000) (λ _, Response 200 (Some payload_hw1)) (λ _, true).

(** The same without [current_date]; the clock reads 2000. *)
Definition world_undated : world :=
  fresh_world (λ _, 2000) (λ _, Response 200 (Some payload_undated)) (λ _, true).

(** The network is down: no request and no message gets through. *)
Definition world_down : world :=
  fresh_world (λ _, 5000) (λ _, RequestException "timed out") (λ _, false).

(** The same with another failure of the request. *)
Definition world_refused : world :=
  fresh_world (λ _, 7000) (λ _, RequestException "Connection refused")
    (λ _, false).

(** Requests fail, messages are delivered. *)
Definition world_offline : world :=
  fresh_world (λ _, 5000) (λ _, RequestException "timed out") (λ _, true).

(** The payload of [hw1] again; only the first message is lost. *)
Definition world_first_lost : world :=
  fresh_world (λ _, 5000) (λ _, Response 200 (Some payload_hw1))
    (λ k, negb (k =? 0)%nat).

(** Only the second message is delivered. *)
Definition world_second_kept : world :=
  fresh_world (λ _, 5000) (λ _, Response 200 (Some payload_hw1))
    (λ k, (k =? 1)%nat).

(** Every message is delivered; the second request is refused, the others
    time out. *)
Definition world_alternating : world :=
  fresh_world (λ _, 5000)
    (λ k, if (k =? 1)%nat then RequestException "Connection refused"
          else RequestException "timed out")
    (λ _, true).

(** What [telegram.Bot] does with a token it accepts and with a token it
    refuses. *)
Definition bot_built : result unit := Ok tt.

Definition token_refused : result unit :=
  Err (Raise InvalidToken "Invalid token").

(** ** The pieces of a cycle *)

Lemma send_message_eq bot message w :
  send_message bot message w =
    if bot_send_message w (sends_made w)
    then (Ok tt, delivered message w)
    else (Err send_error, undelivered message w).
Proof.
  cbv beta iota zeta delta
    [send_message mbind IO_bind logger io_emit telegram_send io_raise
     delivered undelivered logged emit tick_send sends_made bot_send_message].
  destruct w as [clock http telegram k1 k2 k3 evs].
  destruct (telegram k3); reflexivity.
Qed.

Lemma except_block_eq bot error st w :
  except_block bot error st w =
    let w1 := logged ERROR (description error) w in
    if String.eqb (failure_message error) (error_message st) then (Ok tt, st, w1)
    else if bot_send_message w (sends_made w)
    then (Ok tt, set_error_message (failure_message error) st,
          delivered (failure_message error) w1)
    else (Err send_error, st, undelivered (failure_message error) w1).
Proof.
  cbv beta iota zeta delta
    [except_block mbind M_bind call read assign logger io_emit mret M_ret].
  destruct (String.eqb _ _); cbn [negb]; [reflexivity|].
  rewrite send_message_eq. cbn [bot_send_message sends_made emit].
  destruct (bot_send_message w (sends_made w)); reflexivity.
Qed.

Lemma report_eq bot status st w :
  report bot status st w =
    if String.eqb status (status_message st)
    then (Ok tt, st, logged DEBUG unchanged_info w)
    else if bot_send_message w (sends_made w)
    then (Ok tt, set_status_message status st, delivered status w)
    else (Err send_error, st, undelivered status w).
Proof.
  cbv beta iota zeta delta
    [report mbind M_bind call read assign logger io_emit mret M_ret].
  destruct (String.eqb _ _); cbn [negb]; [reflexivity|].
  rewrite send_message_eq.
  destruct (bot_send_message w (sends_made w)); reflexivity.
Qed.

Lemma guarded_returns bot body st w st1 w1 :
  body st w = (Ok tt, st1, w1) →
  guarded bot body st w = (Ok tt, st1, slept w1).
Proof.
  intros H. unfold guarded, try_finally, try_except. rewrite H. reflexivity.
Qed.

Lemma guarded_raises bot body st w error st1 w1 :
  body st w = (Err error, st1, w1) →
  is_Exception (exc error) = true →
  guarded bot body st w = handled bot error st1 w1.
Proof.
  intros H Hexc. unfold guarded, handled, try_finally, try_except.
  rewrite H, Hexc. reflexivity.
Qed.

Lemma handled_eq bot error st w :
  handled bot error st w =
    let w1 := logged ERROR (description error) w in
    if String.eqb (failure_message error) (error_message st)
    then (Ok tt, st, slept w1)
    else if bot_send_message w (sends_made w)
    then (Ok tt, set_error_message (failure_message error) st,
          slept (delivered (failure_message error) w1))
    else (Err send_error, st, slept (undelivered (failure_message error) w1)).
Proof.
  unfold handled, try_finally. rewrite except_block_eq.
  cbv beta iota zeta.
  destruct (String.eqb _ _); [reflexivity|].
  destruct (bot_send_message w (sends_made w)); reflexivity.
Qed.

(** ** The poll *)

Lemma get_api_answer_eq current_timestamp w :
  get_api_answer current_timestamp w =
    (answer (requests_get w (requests_made w)), requested current_timestamp w).
Proof.
  cbv beta iota zeta delta
    [get_api_answer mbind IO_bind mret IO_ret int_time http_get io_raise
     answer requested].
  destruct (truthy current_timestamp);
    cbn [requests_get requests_made tick_clock];
    (destruct (requests_get w (requests_made w)) as [error|code [v|]];
     [reflexivity | destruct (code =? 200); reflexivity
                  | destruct (code =? 200); reflexivity]).
Qed.

Lemma poll_eq st w :
  poll st w =
    let w1 := requested (current_timestamp st) w in
    match answer (requests_get w (requests_made w)) with
    | Err e => (Err e, st, w1)
    | Ok response =>
        match dict_get response "current_date" with
        | Err e => (Err e, st, w1)
        | Ok current_date =>
            (check_response response ≫= parse_status,
             set_current_timestamp current_date st, w1)
        end
    end.
Proof.
  cbv beta iota zeta delta [poll mbind M_bind call read assign eval].
  rewrite get_api_answer_eq.
  destruct (answer _) as [response|e]; [|reflexivity].
  destruct (dict_get response "current_date") as [cd|e]; [|reflexivity].
  destruct (check_response response) as [homework|e]; reflexivity.
Qed.

Lemma check_response_returns response homework :
  check_response response = Ok homework →
  ∃ d l, homework = JList (JDict d :: l).
Proof.
  unfold check_response, mbind, result_bind.
  intros H. repeat case_match; simplify_eq.
  unfold getitem_str, getitem_0, is_dict in *.
  repeat case_match; simplify_eq.
  destruct l; simplify_eq/=. eauto.
Qed.

Lemma parse_status_list l : ∃ e, parse_status (JList l) = Err e.
Proof.
  unfold parse_status, mbind, result_bind. cbn [contains_str getitem_str].
  repeat case_match; eauto.
Qed.

Lemma check_response_catchable response : catchable (check_response response).
Proof.
  unfold check_response, mbind, result_bind, getitem_str, getitem_0,
    contains_str.
  repeat case_match; simplify_eq; exact I || reflexivity.
Qed.

Lemma parse_status_catchable homework : catchable (parse_status homework).
Proof.
  unfold parse_status, mbind, result_bind, getitem_str, contains_str,
    in_statuses, statuses_getitem.
  repeat case_match; simplify_eq; exact I || reflexivity.
Qed.

Lemma answer_catchable outcome : catchable (answer outcome).
Proof.
  unfold answer. repeat case_match; exact I || reflexivity.
Qed.

Lemma dict_get_catchable response key : catchable (dict_get response key).
Proof.
  unfold dict_get. repeat case_match; exact I || reflexivity.
Qed.

(** In [main] the whole list that [check_response] returns goes to
    [parse_status], which finds no key in a list: the poll always raises,
    and leaves the two last messages as they were. *)
Lemma poll_raises st w :
  ∃ error st1 w1,
    poll st w = (Err error, st1, w1) ∧
    is_Exception (exc error) = true ∧
    status_message st1 = status_message st ∧
    error_message st1 = error_message st ∧
    sends_made w1 = sends_made w.
Proof.
  rewrite poll_eq. cbv zeta.
  assert (Hsends : sends_made (requested (current_timestamp st) w) = sends_made w).
  { unfold requested. destruct (truthy _); reflexivity. }
  pose proof (answer_catchable (requests_get w (requests_made w))) as Ha.
  destruct (answer _) as [response|e]; [|by eauto 10].
  pose proof (dict_get_catchable response "current_date") as Hg.
  destruct (dict_get response "current_date") as [cd|e]; [|by eauto 10].
  pose proof (check_response_catchable response) as Hc.
  destruct (check_response response) as [homework|e] eqn:Hcheck;
    [|by unfold mbind, result_bind; eauto 10].
  apply check_response_returns in Hcheck as (d & l & ->).
  pose proof (parse_status_catchable (JList (JDict d :: l))) as Hp.
  destruct (parse_status_list (JDict d :: l)) as [e He].
  rewrite He in Hp. unfold mbind, result_bind. rewrite He. eauto 10.
Qed.

Lemma try_block_raises bot st w :
  ∃ error st1 w1,
    try_block bot st w = (Err error, st1, w1) ∧
    is_Exception (exc error) = true ∧
    status_message st1 = status_message st ∧
    error_message st1 = error_message st ∧
    sends_made w1 = sends_made w.
Proof.
  destruct (poll_raises st w) as (e & st1 & w1 & Hp & H).
  exists e, st1, w1. split; [|exact H].
  unfold try_block, mbind, M_bind. rewrite Hp. reflexivity.
Qed.


(** ** What was sent *)

Lemma sent_texts_emit ev w :
  sent_texts (emit ev w) =
    (sent_texts w ++ match ev with ESend _ text _ => [text] | _ => [] end)%list.
Proof.
  unfold sent_texts. cbn [events emit rev]. rewrite omap_app.
  destruct ev; reflexivity.
Qed.

Lemma sent_texts_tick_send w : sent_texts (tick_send w) = sent_texts w.
Proof. reflexivity. Qed.

Lemma sent_texts_logged level text w : sent_texts (logged level text w) = sent_texts w.
Proof. unfold logged. rewrite sent_texts_emit. apply app_nil_r. Qed.

Lemma sent_texts_slept w : sent_texts (slept w) = sent_texts w.
Proof. unfold slept. rewrite sent_texts_emit. apply app_nil_r. Qed.

Lemma sent_texts_delivered message w :
  sent_texts (delivered message w) = (sent_texts w ++ [message])%list.
Proof.
  unfold delivered. rewrite sent_texts_logged, sent_texts_emit,
    sent_texts_tick_send, sent_texts_logged. reflexivity.
Qed.

Lemma sent_texts_undelivered message w :
  sent_texts (undelivered message w) = (sent_texts w ++ [message])%list.
Proof.
  unfold undelivered. rewrite sent_texts_emit, sent_texts_tick_send,
    sent_texts_logged. reflexivity.
Qed.

Lemma eqb_false_of_ne (s1 s2 : string) : s1 ≠ s2 → String.eqb s1 s2 = false.
Proof. intros H. by apply String.eqb_neq. Qed.

(** An iteration is the handler run on what the [try] block raised. *)
Lemma iteration_handled bot st w error st1 w1 :
  try_block bot st w = (Err error, st1, w1) →
  iteration bot st w = handled bot error st1 w1.
Proof.
  intros H. destruct (try_block_raises bot st w) as (e & st' & w' & H' & He & _).
  rewrite H in H'. simplify_eq. by apply guarded_raises.
Qed.

Lemma try_block_of_poll bot st w error st1 w1 :
  poll st w = (Err error, st1, w1) →
  try_block bot st w = (Err error, st1, w1).
Proof. intros H. unfold try_block, mbind, M_bind. rewrite H. reflexivity. Qed.

(** ** The payload of one approved homework *)

Lemma check_response_hw1 : check_response payload_hw1 = Ok (JList [record_hw1]).
Proof. vm_compute. reflexivity. Qed.

Lemma parse_status_hw1 : parse_status record_hw1 = Ok hw1_text.
Proof. vm_compute. reflexivity. Qed.

Lemma dict_get_hw1 : dict_get payload_hw1 "current_date" = Ok (JInt 1000).
Proof. vm_compute. reflexivity. Qed.

(** What [main] computes: [parse_status] of the whole list. *)
Lemma parse_status_of_check_response_hw1 :
  check_response payload_hw1 ≫= parse_status = Err missing_name_error.
Proof. vm_compute. reflexivity. Qed.

Lemma poll_hw1 st w :
  requests_get w (requests_made w) = Response 200 (Some payload_hw1) →
  poll st w =
    (Err missing_name_error, set_current_timestamp (JInt 1000) st,
     requested (current_timestamp st) w).
Proof.
  intros H. rewrite poll_eq, H. cbv zeta.
  change (answer (Response 200 (Some payload_hw1))) with (Ok payload_hw1).
  cbv beta iota.
  rewrite dict_get_hw1, parse_status_of_check_response_hw1. reflexivity.
Qed.

(** C1 (amended).  For the payload
    [{"homeworks": [{"homework_name": "hw1", "status": "approved"}],
    "current_date": 1000}], [check_response] returns the list of homeworks,
    [parse_status] turns its record into the text
    [Изменился статус проверки работы "hw1". Работа проверена: ревьюеру всё
    понравилось. Ура!], and a cycle that fetches the payload moves the cursor
    to 1000. *)
Theorem hw1_cycle bot st w :
  requests_get w (requests_made w) = Response 200 (Some payload_hw1) →
  check_response payload_hw1 = Ok (JList [record_hw1]) ∧
  parse_status record_hw1 = Ok hw1_text ∧
  ∃ r st' w', iteration bot st w = (r, st', w') ∧
              current_timestamp st' = JInt 1000.
Proof.
  intros H. split; [apply check_response_hw1|]. split; [apply parse_status_hw1|].
  rewrite (iteration_handled bot st w _ _ _ (try_block_of_poll bot _ _ _ _ _ (poll_hw1 st w H))).
  rewrite handled_eq. cbv zeta.
  repeat case_match; eauto.
Qed.

(** ** [check_response] on a payload without homeworks *)

(** The [raise] under [if 'homeworks' not in response] is dead: the
    subscript of the first line has already raised when the key is absent. *)
Lemma check_response_never_reports_missing_key response :
  check_response response ≠ Err missing_homeworks_error.
Proof.
  unfold check_response, mbind, result_bind, getitem_str, getitem_0,
    contains_str.
  repeat case_match; simplify_eq; discriminate.
Qed.

(** C4.  A payload without the key [homeworks] makes [check_response] fail,
    but with the [KeyError] of the subscript [response['homeworks']], whose
    description is ['homeworks'], and not with the error that the function
    itself raises for a missing key. *)
Theorem check_response_without_homeworks d :
  d !! "homeworks" = None →
  check_response (JDict d) = Err (Raise KeyError "'homeworks'") ∧
  check_response (JDict d) ≠ Err missing_homeworks_error.
Proof.
  intros H. split; [|apply check_response_never_reports_missing_key].
  unfold check_response, mbind, result_bind, getitem_str. rewrite H.
  reflexivity.
Qed.

(** C8.  A payload whose key [homeworks] holds the empty list makes
    [check_response] raise the error of the empty list. *)
Theorem check_response_empty_homeworks d :
  d !! "homeworks" = Some (JList []) →
  check_response (JDict d) = Err empty_list_error.
Proof.
  intros H. unfold check_response, mbind, result_bind, getitem_str.
  rewrite H. reflexivity.
Qed.

(** ** The cycle *)

(** C2 (amended).  When the [try] block has raised an error whose report is
    new and the delivery of that report fails, the sleep of the [finally]
    block still runs, and then the [SendMessageException] leaves the
    iteration and the loop: no further iteration starts. *)
Theorem failed_error_report_leaves_loop bot st w error st1 w1 fuel :
  try_block bot st w = (Err error, st1, w1) →
  failure_message error ≠ error_message st1 →
  bot_send_message w1 (sends_made w1) = false →
  iteration bot st w =
    (Err send_error, st1,
     slept (undelivered (failure_message error)
              (logged ERROR (description error) w1))) ∧
  while_true (S fuel) bot st w = iteration bot st w.
Proof.
  intros Htry Hnew Hsend.
  assert (Hit : iteration bot st w =
    (Err send_error, st1,
     slept (undelivered (failure_message error)
              (logged ERROR (description error) w1)))).
  { rewrite (iteration_handled _ _ _ _ _ _ Htry), handled_eq. cbv zeta.
    rewrite (eqb_false_of_ne _ _ Hnew), Hsend. reflexivity. }
  split; [exact Hit|].
  cbn [while_true]. unfold mbind at 1, M_bind. rewrite Hit. reflexivity.
Qed.

(** C3 (amended).  After a successful fetch of a payload without
    [current_date] the cursor is [None], and the next call of
    [get_api_answer] with it asks for the homeworks from the current time. *)
Theorem undated_payload_resets_cursor bot st w d :
  requests_get w (requests_made w) = Response 200 (Some (JDict d)) →
  d !! "current_date" = None →
  ∃ r st' w',
    iteration bot st w = (r, st', w') ∧
    current_timestamp st' = JNull ∧
    ∀ w2, get_api_answer (current_timestamp st') w2 =
            (answer (requests_get w2 (requests_made w2)),
             emit (EGet ENDPOINT ("OAuth " ++ token_str PRACTICUM_TOKEN)
                        (JInt (time_time w2 (clock_reads w2))))
                  (tick_request (tick_clock w2))).
Proof.
  intros Hget Hdate.
  destruct (try_block_raises bot st w) as (e & st1 & w1 & Htry & _).
  assert (Hcur : current_timestamp st1 = JNull).
  { unfold try_block, mbind, M_bind in Htry. rewrite poll_eq, Hget in Htry.
    cbv zeta in Htry.
    change (answer (Response 200 (Some (JDict d)))) with (Ok (JDict d)) in Htry.
    cbv beta iota in Htry. unfold dict_get in Htry. rewrite Hdate in Htry.
    cbn [default] in Htry.
    destruct (check_response (JDict d) ≫= parse_status);
      [rewrite report_eq in Htry; repeat case_match|];
      simplify_eq; reflexivity. }
  rewrite (iteration_handled _ _ _ _ _ _ Htry), handled_eq. cbv zeta.
  repeat case_match; (do 3 eexists; split; [reflexivity|]);
    cbn [current_timestamp set_error_message]; rewrite Hcur;
    (split; [reflexivity|]); intros w2; apply get_api_answer_eq.
Qed.

(** C5 (amended).  When the candidate differs from the last status message,
    [send_message] is called with it; the last status message becomes the
    candidate when the message is delivered, and keeps its value when the
    delivery fails with [SendMessageException]. *)
Theorem status_recorded_when_delivered bot status st w :
  status ≠ status_message st →
  report bot status st w =
    (if bot_send_message w (sends_made w)
     then (Ok tt, set_status_message status st, delivered status w)
     else (Err send_error, st, undelivered status w)) ∧
  ∃ r st' w',
    guarded bot (report bot status) st w = (r, st', w') ∧
    In (ESend TELEGRAM_CHAT_ID status (bot_send_message w (sends_made w)))
       (events w') ∧
    status_message st' =
      if bot_send_message w (sends_made w) then status else status_message st.
Proof.
  intros Hnew.
  assert (Hrep : report bot status st w =
    if bot_send_message w (sends_made w)
    then (Ok tt, set_status_message status st, delivered status w)
    else (Err send_error, st, undelivered status w)).
  { rewrite report_eq, (eqb_false_of_ne _ _ Hnew). reflexivity. }
  split; [exact Hrep|].
  destruct (bot_send_message w (sends_made w)) eqn:Hsend.
  - rewrite (guarded_returns _ _ _ _ _ _ Hrep). do 3 eexists.
    split; [reflexivity|]. split; [|reflexivity].
    cbn. tauto.
  - rewrite (guarded_raises _ _ _ _ _ _ _ Hrep eq_refl), handled_eq. cbv zeta.
    repeat case_match; (do 3 eexists; split; [reflexivity|]);
      (split; [cbn; tauto | reflexivity]).
Qed.

(** C6 (amended).  [send_message] is called with the candidate only when it
    differs from the last status message.  Of two consecutive cycles with the
    same candidate, new to the first, the first calls it once and, when that
    message is delivered, the second (whatever cursor and world the poll in
    between has left) does not call it. *)
Theorem status_sent_once_when_delivered bot status st w :
  (status = status_message st →
   guarded bot (report bot status) st w =
     (Ok tt, st, slept (logged DEBUG unchanged_info w))) ∧
  (status ≠ status_message st →
   bot_send_message w (sends_made w) = true →
   guarded bot (report bot status) st w =
     (Ok tt, set_status_message status st, slept (delivered status w)) ∧
   ∀ ts w2,
     guarded bot (report bot status)
       (set_current_timestamp ts (set_status_message status st)) w2 =
       (Ok tt, set_current_timestamp ts (set_status_message status st),
        slept (logged DEBUG unchanged_info w2))).
Proof.
  split.
  - intros Heq. apply guarded_returns. rewrite report_eq, Heq, String.eqb_refl.
    reflexivity.
  - intros Hnew Hsend. split.
    + apply guarded_returns.
      rewrite report_eq, (eqb_false_of_ne _ _ Hnew), Hsend. reflexivity.
    + intros ts w2. apply guarded_returns. rewrite report_eq.
      cbn [status_message set_current_timestamp set_status_message].
      rewrite String.eqb_refl. reflexivity.
Qed.

(** C7.  The error report is sent only when the failure message differs
    from the last error message.  Of two consecutive cycles that raise errors
    with the same description, new to the first, the first calls
    [send_message] with the failure message once, and the second, which runs
    when that report was delivered, does not call it. *)
Theorem error_reported_once bot st w error st1 w1 :
  try_block bot st w = (Err error, st1, w1) →
  (failure_message error = error_message st →
   iteration bot st w =
     (Ok tt, st1, slept (logged ERROR (description error) w1))) ∧
  (failure_message error ≠ error_message st →
   ∃ r st' w',
     iteration bot st w = (r, st', w') ∧
     sent_texts w' = (sent_texts w1 ++ [failure_message error])%list ∧
     (r = Ok tt →
      ∀ error2 st2 w2,
        try_block bot st' w' = (Err error2, st2, w2) →
        description error2 = description error →
        iteration bot st' w' =
          (Ok tt, st2, slept (logged ERROR (description error2) w2)))).
Proof.
  intros Htry.
  destruct (try_block_raises bot st w) as (e & st0 & w0 & Htry' & _ & _ & Herr & _).
  rewrite Htry in Htry'. simplify_eq.
  rewrite (iteration_handled _ _ _ _ _ _ Htry), handled_eq. cbv zeta.
  rewrite Herr. split.
  - intros ->. rewrite String.eqb_refl. reflexivity.
  - intros Hnew. rewrite (eqb_false_of_ne _ _ Hnew).
    destruct (bot_send_message w0 (sends_made w0)).
    + do 3 eexists. split; [reflexivity|]. split.
      * rewrite sent_texts_slept, sent_texts_delivered, sent_texts_logged.
        reflexivity.
      * intros _ error2 st2 w2 Htry2 Hsame.
        destruct (try_block_raises bot
                    (set_error_message (failure_message e) st0)
                    (slept (delivered (failure_message e)
                              (logged ERROR (description e) w0))))
          as (e2 & st2' & w2' & Htry2' & _ & _ & Herr2 & _).
        rewrite Htry2 in Htry2'. simplify_eq.
        rewrite (iteration_handled _ _ _ _ _ _ Htry2), handled_eq. cbv zeta.
        rewrite Herr2. cbn [error_message set_error_message].
        unfold failure_message at 1. rewrite Hsame.
        fold (failure_message e). rewrite String.eqb_refl. reflexivity.
    + do 3 eexists. split; [reflexivity|]. split.
      * rewrite sent_texts_slept, sent_texts_undelivered, sent_texts_logged.
        reflexivity.
      * intros Hok. discriminate Hok.
Qed.

(** C9 (amended).  When [requests.get] raises, the cycle always sleeps for
    [RETRY_TIME].  It ends without an exception, so that the loop goes on,
    when the failure message equals the last error message or its report is
    delivered; when the report is not delivered, the
    [SendMessageException] leaves the loop after the sleep. *)
Theorem transport_failure_cycle bot st w error fuel :
  requests_get w (requests_made w) = RequestException error →
  let failure := api_error error in
  let w1 := logged ERROR (description failure)
              (requested (current_timestamp st) w) in
  iteration bot st w =
    (if String.eqb (failure_message failure) (error_message st)
     then (Ok tt, st, slept w1)
     else if bot_send_message w (sends_made w)
     then (Ok tt, set_error_message (failure_message failure) st,
           slept (delivered (failure_message failure) w1))
     else (Err send_error, st,
           slept (undelivered (failure_message failure) w1))) ∧
  while_true (S fuel) bot st w =
    match iteration bot st w with
    | (Ok _, st', w') => while_true fuel bot st' w'
    | (Err e, st', w') => (Err e, st', w')
    end.
Proof.
  intros Hget failure w1. split; [|reflexivity].
  assert (Hpoll : poll st w =
    (Err failure, st, requested (current_timestamp st) w)).
  { rewrite poll_eq, Hget. reflexivity. }
  rewrite (iteration_handled _ _ _ _ _ _ (try_block_of_poll bot _ _ _ _ _ Hpoll)).
  rewrite handled_eq. cbv zeta.
  replace (bot_send_message (requested (current_timestamp st) w)
             (sends_made (requested (current_timestamp st) w)))
    with (bot_send_message w (sends_made w))
    by (unfold requested; destruct (truthy _); reflexivity).
  reflexivity.
Qed.

(** ** More about [check_response] *)

(** X1.  [check_response] returns only for a [dict] whose key [homeworks]
    holds a list that starts with a [dict], and then it returns that list
    whole, as it was received. *)
Theorem check_response_accepts response homework :
  check_response response = Ok homework ↔
  ∃ d first rest,
    response = JDict d ∧ d !! "homeworks" = Some homework ∧
    homework = JList (JDict first :: rest).
Proof.
  split.
  - unfold check_response, mbind, result_bind. intros H.
    repeat case_match; simplify_eq.
    unfold getitem_str, getitem_0, is_dict in *.
    repeat case_match; simplify_eq.
    destruct l; simplify_eq/=. eauto 10.
  - intros (d & first & rest & -> & Hd & ->).
    unfold check_response, mbind, result_bind, getitem_str, contains_str.
    rewrite Hd. reflexivity.
Qed.

(** X2.  Of a list under [homeworks] only the first element is looked at:
    [None] there is the error of the missing list, a [dict] there makes the
    whole list the result, anything else is the type error that names the
    whole list; the other elements never matter. *)
Theorem check_response_inspects_first d first rest :
  d !! "homeworks" = Some (JList (first :: rest)) →
  check_response (JDict d) =
    if is_None first then Err no_homework_error
    else if is_dict first then Ok (JList (first :: rest))
    else Err (not_a_dict_error (JList (first :: rest))).
Proof.
  intros Hd.
  unfold check_response, mbind, result_bind, getitem_str, contains_str.
  rewrite Hd. cbn [is_empty_list]. cbv beta iota.
  replace (bool_decide (is_Some (Some (JList (first :: rest))))) with true
    by reflexivity.
  cbn [negb getitem_0 lookup list_lookup].
  destruct (is_None first); [reflexivity|].
  destruct (is_dict first); reflexivity.
Qed.

(** X3.  A payload that is not a [dict] never gets as far as the checks: the
    subscript of the first line raises a [TypeError], which is none of the
    errors that [check_response] raises itself. *)
Theorem check_response_not_a_dict response :
  is_dict response = false →
  ∃ text,
    check_response response = Err (Raise TypeError text) ∧
    Raise TypeError text ≠ empty_list_error ∧
    Raise TypeError text ≠ missing_homeworks_error ∧
    Raise TypeError text ≠ no_homework_error ∧
    ∀ homework, Raise TypeError text ≠ not_a_dict_error homework.
Proof.
  intros H. destruct response; try discriminate H;
    unfold check_response, mbind, result_bind, getitem_str;
    (eexists; split; [reflexivity|]);
    unfold empty_list_error, missing_homeworks_error, no_homework_error,
      not_a_dict_error;
    (repeat split; [intros Heq | intros Heq | intros Heq | intros homework Heq]);
    cbn in Heq; discriminate Heq.
Qed.

(** ** More about [parse_status] *)

Lemma lookup_status_known s verdict :
  HOMEWORK_STATUSES !! s = Some verdict →
  in_statuses (JStr s) = Ok true ∧ statuses_getitem (JStr s) = Ok verdict.
Proof.
  intros H. unfold in_statuses, statuses_getitem. rewrite H. split; reflexivity.
Qed.

(** X4.  [parse_status] returns for a [dict] exactly when it has a name and
    a status that is one of the keys of [HOMEWORK_STATUSES]; the text is then
    the template filled with the name and the verdict of that status. *)
Theorem parse_status_formats d text :
  parse_status (JDict d) = Ok text ↔
  ∃ homework_name s verdict,
    d !! "homework_name" = Some homework_name ∧
    d !! "status" = Some (JStr s) ∧
    HOMEWORK_STATUSES !! s = Some verdict ∧
    text = status_text homework_name verdict.
Proof.
  split.
  - unfold parse_status, mbind, result_bind, contains_str, getitem_str.
    intros H. repeat case_match; simplify_eq.
    unfold in_statuses, statuses_getitem in *.
    repeat case_match; simplify_eq. eauto 10.
  - intros (name & s & verdict & Hname & Hstatus & Hverdict & ->).
    destruct (lookup_status_known _ _ Hverdict) as [Hin Hget].
    unfold parse_status, mbind, result_bind, contains_str, getitem_str.
    rewrite Hname, Hstatus, Hin, Hget. reflexivity.
Qed.

(** X5.  The name is checked first: a [dict] without [homework_name] raises
    the [KeyError] of the missing name, whatever else it holds. *)
Theorem parse_status_missing_name d :
  d !! "homework_name" = None →
  parse_status (JDict d) = Err missing_name_error.
Proof.
  intros H. unfold parse_status, mbind, result_bind, contains_str.
  rewrite H. reflexivity.
Qed.

(** X6.  A [dict] with a name and without [status] raises the plain
    [Exception] of the missing status. *)
Theorem parse_status_missing_status d homework_name :
  d !! "homework_name" = Some homework_name →
  d !! "status" = None →
  parse_status (JDict d) = Err missing_status_error.
Proof.
  intros Hname Hstatus. unfold parse_status, mbind, result_bind, contains_str.
  rewrite Hname, Hstatus. reflexivity.
Qed.

(** X7.  A status that is a text other than [approved], [reviewing] and
    [rejected] raises the [Exception] of the unknown status, which quotes the
    status; no verdict is made up for it. *)
Theorem parse_status_unknown_status d homework_name s :
  d !! "homework_name" = Some homework_name →
  d !! "status" = Some (JStr s) →
  s ≠ "approved" → s ≠ "reviewing" → s ≠ "rejected" →
  parse_status (JDict d) =
    Err (Raise PyException ("Неизвестный статус работы: " ++ s)).
Proof.
  intros Hname Hstatus H1 H2 H3.
  assert (Hnone : HOMEWORK_STATUSES !! s = None).
  { unfold HOMEWORK_STATUSES.
    rewrite !lookup_insert_ne by congruence.
    apply lookup_singleton_ne. congruence. }
  unfold parse_status, mbind, result_bind, contains_str, getitem_str,
    in_statuses.
  rewrite Hname, Hstatus, Hnone. reflexivity.
Qed.

Lemma no_key_among_dicts key l :
  Forall (λ v, is_dict v = true) l → existsb (str_eq key) l = false.
Proof.
  induction 1 as [|v l Hv _ IH]; [reflexivity|].
  cbn [existsb]. rewrite IH. destruct v; try discriminate Hv. reflexivity.
Qed.

(** X8.  Given a list of homeworks instead of one homework, [parse_status]
    looks for the text [homework_name] among the elements; in a list of
    records it finds none and raises the [KeyError] of the missing name. *)
Theorem parse_status_of_records l :
  Forall (λ v, is_dict v = true) l →
  parse_status (JList l) = Err missing_name_error.
Proof.
  intros H. unfold parse_status, mbind, result_bind, contains_str.
  rewrite (no_key_among_dicts _ _ H). reflexivity.
Qed.

(** X9.  What [main] computes, [parse_status(check_response(response))], is
    never a status text: whatever the payload, it raises. *)
Theorem parse_status_of_check_response_raises response :
  ∃ error, check_response response ≫= parse_status = Err error.
Proof.
  destruct (check_response response) as [homework|e] eqn:Hcheck;
    [|by exists e].
  apply check_response_returns in Hcheck as (d & l & ->).
  destruct (parse_status_list (JDict d :: l)) as [e He].
  exists e. unfold mbind, result_bind. exact He.
Qed.

(** X10.  For a payload whose homeworks are all records, that composition
    raises the [KeyError] of the missing name, although every record may well
    have one. *)
Theorem parse_status_of_check_response_records d first rest :
  d !! "homeworks" = Some (JList (JDict first :: rest)) →
  Forall (λ v, is_dict v = true) rest →
  check_response (JDict d) ≫= parse_status = Err missing_name_error.
Proof.
  intros Hd Hrest.
  assert (Hcheck : check_response (JDict d) = Ok (JList (JDict first :: rest))).
  { unfold check_response, mbind, result_bind, getitem_str, contains_str.
    rewrite Hd. reflexivity. }
  rewrite Hcheck. unfold mbind at 1, result_bind.
  unfold parse_status, mbind, result_bind, contains_str.
  rewrite (no_key_among_dicts "homework_name" (JDict first :: rest))
    by (constructor; [reflexivity | exact Hrest]).
  reflexivity.
Qed.

(** ** More about [get_api_answer] and [send_message] *)

Lemma from_dates_emit ev w :
  from_dates (emit ev w) =
    (from_dates w ++ match ev with EGet _ _ from_date => [from_date] | _ => [] end)%list.
Proof.
  unfold from_dates. cbn [events emit rev]. rewrite omap_app.
  destruct ev; reflexivity.
Qed.

Lemma answer_returns outcome v :
  answer outcome = Ok v ↔ outcome = Response 200 (Some v).
Proof.
  split.
  - unfold answer. intros H. repeat case_match; simplify_eq.
    f_equal. by apply Z.eqb_eq.
  - intros ->. reflexivity.
Qed.

(** X11.  [get_api_answer] returns a payload exactly when the response has
    the status 200 and a body that decodes, and the payload is that body. *)
Theorem get_api_answer_returns current_timestamp w v w' :
  get_api_answer current_timestamp w = (Ok v, w') ↔
  requests_get w (requests_made w) = Response 200 (Some v) ∧
  w' = requested current_timestamp w.
Proof.
  rewrite get_api_answer_eq. split.
  - intros H. injection H as Ha Hw. split; [by apply answer_returns | done].
  - intros [Hget ->]. f_equal. by apply answer_returns.
Qed.

(** X12.  A response with another status than 200 raises the plain
    [Exception] that names the status, whether its body decodes or not. *)
Theorem get_api_answer_bad_status current_timestamp w status_code body :
  requests_get w (requests_made w) = Response status_code body →
  status_code ≠ 200 →
  get_api_answer current_timestamp w =
    (Err (Raise PyException ("Ошибка " ++ pretty status_code)),
     requested current_timestamp w).
Proof.
  intros Hget Hcode. rewrite get_api_answer_eq, Hget. unfold answer.
  destruct (Z.eqb_spec status_code 200) as [->|_]; [done|reflexivity].
Qed.

(** X13.  Every call of [get_api_answer] makes one request.  It asks from
    the cursor when the cursor counts as true, and otherwise (for [None] or
    0, say) reads the clock once and asks from that time; it hands nothing
    to the bot. *)
Theorem get_api_answer_request current_timestamp w :
  let w' := (get_api_answer current_timestamp w).2 in
  requests_made w' = S (requests_made w) ∧
  from_dates w' =
    (from_dates w ++
       [if truthy current_timestamp then current_timestamp
        else JInt (time_time w (clock_reads w))])%list ∧
  clock_reads w' =
    (if truthy current_timestamp then clock_reads w else S (clock_reads w)) ∧
  sends_made w' = sends_made w ∧
  sent_texts w' = sent_texts w.
Proof.
  rewrite get_api_answer_eq. cbn [snd]. unfold requested.
  destruct (truthy current_timestamp);
    rewrite from_dates_emit, sent_texts_emit, app_nil_r; repeat split.
Qed.

(** X14.  Every call of [send_message] hands the message, unchanged, to the
    bot exactly once and makes no request.  It returns when the message is
    delivered; when the bot raises a [TelegramError] it raises
    [SendMessageException] with its fixed text, whatever that error said. *)
Theorem send_message_once bot message w :
  let '(r, w') := send_message bot message w in
  sends_made w' = S (sends_made w) ∧
  sent_texts w' = (sent_texts w ++ [message])%list ∧
  requests_made w' = requests_made w ∧
  r = (if bot_send_message w (sends_made w) then Ok tt else Err send_error).
Proof.
  rewrite send_message_eq.
  destruct (bot_send_message w (sends_made w));
    rewrite ?sent_texts_delivered, ?sent_texts_undelivered; repeat split.
Qed.

(** ** More about [check_tokens] and the start of [main] *)

Lemma token_set_true token :
  token_set token = true ↔ ∃ s, token = Some s ∧ s ≠ "".
Proof.
  destruct token as [s|]; cbn [token_set].
  - rewrite negb_true_iff, String.eqb_neq. split; [eauto|].
    intros (s' & [= <-] & H). exact H.
  - split; [discriminate|]. intros (s & H & _). discriminate H.
Qed.

(** X15.  [check_tokens] holds exactly when each of the three variables is
    set to a text that is not empty: an empty token counts as missing. *)
Theorem check_tokens_all_set :
  check_tokens = true ↔
  (∃ s, PRACTICUM_TOKEN = Some s ∧ s ≠ "") ∧
  (∃ s, TELEGRAM_TOKEN = Some s ∧ s ≠ "") ∧
  (∃ s, TELEGRAM_CHAT_ID = Some s ∧ s ≠ "").
Proof.
  unfold check_tokens. cbn [forallb].
  rewrite !andb_true_iff, !token_set_true. tauto.
Qed.

Lemma main_eq fuel w :
  check_tokens = true →
  main fuel w =
    match telegram_Bot with
    | Err error => (Err error, w)
    | Ok bot =>
        if bot_send_message w (sends_made w)
        then enter_loop fuel bot (time_time w (clock_reads w))
               (tick_clock (delivered start_message w))
        else (Err send_error, undelivered start_message w)
    end.
Proof.
  intros Htokens. unfold main. rewrite Htokens. cbn [negb].
  unfold mbind at 1, IO_bind, io_eval.
  destruct (telegram_Bot) as [bot|error]; [|reflexivity].
  unfold mbind at 1, IO_bind. rewrite send_message_eq.
  destruct (bot_send_message w (sends_made w)); reflexivity.
Qed.

(** X16.  With a token that is missing or empty, [main] logs the critical
    line and exits with [SystemExit(1)]: it sends no message, not even the
    start message, and makes no request. *)
Theorem main_without_tokens fuel w :
  check_tokens = false →
  main fuel w =
    (Err (Raise SystemExit "1"), logged CRITICAL "Отсутствуют токены" w) ∧
  sent_texts (main fuel w).2 = sent_texts w ∧
  requests_made (main fuel w).2 = requests_made w.
Proof.
  intros H.
  assert (Hmain : main fuel w =
    (Err (Raise SystemExit "1"), logged CRITICAL "Отсутствуют токены" w)).
  { unfold main. rewrite H. reflexivity. }
  rewrite Hmain. cbn [snd]. rewrite sent_texts_logged. repeat split.
Qed.

(** X17.  When the bot is built and the start message is not delivered,
    [main] ends with the [SendMessageException] before the loop: no request
    is made and nothing sleeps. *)
Theorem main_start_not_delivered fuel w :
  check_tokens = true →
  telegram_Bot = Ok tt →
  bot_send_message w (sends_made w) = false →
  main fuel w = (Err send_error, undelivered start_message w).
Proof.
  intros Htokens Hbot Hsend. rewrite (main_eq _ _ Htokens), Hbot, Hsend.
  reflexivity.
Qed.

(** X28.  When the tokens are set and [telegram.Bot] refuses the token,
    [main] ends with the error of the constructor: nothing is sent, not even
    the start message, and no request is made. *)
Theorem main_bot_not_built fuel w error :
  check_tokens = true →
  telegram_Bot = Err error →
  main fuel w = (Err error, w).
Proof.
  intros Htokens Hbot. rewrite (main_eq _ _ Htokens), Hbot. reflexivity.
Qed.

(** ** More about the iteration and the loop *)

Lemma poll_world st w r st1 w1 :
  poll st w = (r, st1, w1) → w1 = requested (current_timestamp st) w.
Proof.
  rewrite poll_eq. cbv zeta. intros H. repeat case_match; simplify_eq; done.
Qed.

Lemma iteration_eq bot st w :
  ∃ error st1,
    iteration bot st w =
      handled bot error st1 (requested (current_timestamp st) w) ∧
    status_message st1 = status_message st ∧
    error_message st1 = error_message st.
Proof.
  destruct (poll_raises st w) as (e & st1 & w1 & Hpoll & _ & Hs & He & _).
  pose proof (poll_world _ _ _ _ _ Hpoll) as ->.
  exists e, st1. split; [|done].
  apply iteration_handled. by apply try_block_of_poll.
Qed.

Lemma requests_made_requested ts w :
  requests_made (requested ts w) = S (requests_made w).
Proof. unfold requested. destruct (truthy ts); reflexivity. Qed.

Lemma sends_made_requested ts w :
  sends_made (requested ts w) = sends_made w.
Proof. unfold requested. destruct (truthy ts); reflexivity. Qed.

Lemma sent_texts_requested ts w : sent_texts (requested ts w) = sent_texts w.
Proof.
  unfold requested. destruct (truthy ts); rewrite sent_texts_emit; apply app_nil_r.
Qed.

Lemma oracles_requested ts w :
  bot_send_message (requested ts w) = bot_send_message w ∧
  requests_get (requested ts w) = requests_get w.
Proof. unfold requested. destruct (truthy ts); split; reflexivity. Qed.

(** X18.  Whatever happens in an iteration, it makes exactly one request
    and the last thing it does is to sleep for [RETRY_TIME]. *)
Theorem iteration_requests_once_and_sleeps bot st w :
  let '(r, st', w') := iteration bot st w in
  (∃ before, events w' = ESleep RETRY_TIME :: before) ∧
  requests_made w' = S (requests_made w).
Proof.
  destruct (iteration_eq bot st w) as (e & st1 & -> & _).
  rewrite handled_eq. cbv zeta.
  destruct (String.eqb _ _); [|destruct (bot_send_message _ _)];
    (split; [by eexists|]); cbn; apply requests_made_requested.
Qed.

Lemma iteration_sends_no_status_aux bot st w :
  sent_texts (iteration bot st w).2 = sent_texts w ∨
  ∃ error,
    sent_texts (iteration bot st w).2 =
      (sent_texts w ++ [failure_message error])%list.
Proof.
  destruct (iteration_eq bot st w) as (e & st1 & -> & _).
  rewrite handled_eq. cbv zeta.
  destruct (String.eqb _ _); [|destruct (bot_send_message _ _)]; cbn [snd];
    rewrite sent_texts_slept, ?sent_texts_delivered, ?sent_texts_undelivered,
      sent_texts_logged, sent_texts_requested; eauto.
Qed.

(** X19.  An iteration of [main] never sends a status and never records one:
    the last status message keeps its value, and what the iteration sends is
    nothing or one failure report. *)
Theorem iteration_sends_no_status bot st w :
  let '(r, st', w') := iteration bot st w in
  status_message st' = status_message st ∧
  (sent_texts w' = sent_texts w ∨
   ∃ error, sent_texts w' = (sent_texts w ++ [failure_message error])%list).
Proof.
  destruct (iteration_eq bot st w) as (e & st1 & -> & Hs & _).
  rewrite handled_eq. cbv zeta.
  destruct (String.eqb _ _); [|destruct (bot_send_message _ _)];
    (split; [exact Hs|]);
    rewrite sent_texts_slept, ?sent_texts_delivered, ?sent_texts_undelivered,
      sent_texts_logged, sent_texts_requested; eauto.
Qed.

(** X20.  An iteration that fetches a [dict] leaves the cursor at whatever
    the payload holds under [current_date] ([None] when it holds nothing),
    also when the payload then fails the checks. *)
Theorem iteration_moves_cursor bot st w d :
  requests_get w (requests_made w) = Response 200 (Some (JDict d)) →
  current_timestamp (iteration bot st w).1.2 = default JNull (d !! "current_date").
Proof.
  intros Hget.
  destruct (poll_raises st w) as (e & st1 & w1 & Hpoll & _).
  assert (Hcur : current_timestamp st1 = default JNull (d !! "current_date")).
  { rewrite poll_eq, Hget in Hpoll. cbv zeta in Hpoll.
    change (answer (Response 200 (Some (JDict d)))) with (Ok (JDict d)) in Hpoll.
    cbv beta iota in Hpoll. cbn [dict_get] in Hpoll.
    destruct (check_response (JDict d) ≫= parse_status); simplify_eq.
    reflexivity. }
  rewrite (iteration_handled _ _ _ _ _ _ (try_block_of_poll bot _ _ _ _ _ Hpoll)).
  rewrite handled_eq. cbv zeta.
  destruct (String.eqb _ _); [|destruct (bot_send_message _ _)]; exact Hcur.
Qed.

(** X21.  An iteration whose fetch does not return a [dict] (the request
    fails, the status is not 200, the body does not decode or decodes to
    something else) leaves the cursor where it was. *)
Theorem iteration_keeps_cursor bot st w :
  (∀ d, requests_get w (requests_made w) ≠ Response 200 (Some (JDict d))) →
  current_timestamp (iteration bot st w).1.2 = current_timestamp st.
Proof.
  intros Hget.
  destruct (poll_raises st w) as (e & st1 & w1 & Hpoll & _).
  assert (Hcur : current_timestamp st1 = current_timestamp st).
  { rewrite poll_eq in Hpoll. cbv zeta in Hpoll.
    destruct (answer _) as [response|e'] eqn:Hanswer; [|by simplify_eq].
    apply answer_returns in Hanswer.
    destruct response; try (cbn [dict_get] in Hpoll; by simplify_eq).
    by destruct (Hget d). }
  rewrite (iteration_handled _ _ _ _ _ _ (try_block_of_poll bot _ _ _ _ _ Hpoll)).
  rewrite handled_eq. cbv zeta.
  destruct (String.eqb _ _); [|destruct (bot_send_message _ _)]; exact Hcur.
Qed.

(** X22.  The last error message changes only in an iteration that ends
    without an exception, and only to the failure report that this iteration
    has just had delivered. *)
Theorem error_message_is_delivered_report bot st w :
  let '(r, st', w') := iteration bot st w in
  error_message st' ≠ error_message st →
  r = Ok tt ∧
  sent_texts w' = (sent_texts w ++ [error_message st'])%list ∧
  In (ESend TELEGRAM_CHAT_ID (error_message st') true) (events w').
Proof.
  destruct (iteration_eq bot st w) as (e & st1 & -> & _ & He).
  rewrite handled_eq. cbv zeta.
  destruct (String.eqb _ _); [|destruct (bot_send_message _ _)];
    cbn [error_message set_error_message]; intros Hchanged;
    try (by destruct Hchanged).
  split; [reflexivity|]. split.
  - rewrite sent_texts_slept, sent_texts_delivered, sent_texts_logged,
      sent_texts_requested. reflexivity.
  - cbn. tauto.
Qed.

Lemma while_true_step bot fuel st w :
  while_true (S fuel) bot st w =
    match iteration bot st w with
    | (Ok _, st', w') => while_true fuel bot st' w'
    | (Err e, st', w') => (Err e, st', w')
    end.
Proof. reflexivity. Qed.

Lemma while_true_error bot fuel :
  ∀ st w e st' w',
    while_true fuel bot st w = (Err e, st', w') → e = send_error.
Proof.
  induction fuel as [|fuel IH]; intros st w e st' w' H; [discriminate H|].
  rewrite while_true_step in H.
  destruct (iteration_eq bot st w) as (e0 & st1 & Hit & _).
  rewrite Hit, handled_eq in H. cbv zeta in H.
  destruct (String.eqb _ _); [|destruct (bot_send_message _ _)];
    try (by eapply IH); by simplify_eq.
Qed.

Lemma while_true_sends bot fuel :
  ∀ st w,
    ∃ reports,
      sent_texts (while_true fuel bot st w).2 = (sent_texts w ++ reports)%list ∧
      Forall (λ text, ∃ error, text = failure_message error) reports.
Proof.
  induction fuel as [|fuel IH]; intros st w.
  { exists []. split; [symmetry; apply app_nil_r | constructor]. }
  rewrite while_true_step.
  pose proof (iteration_sends_no_status_aux bot st w) as Hsent.
  destruct (iteration bot st w) as [[[[]|e] st1] w1]; cbn [snd] in *.
  - destruct (IH st1 w1) as (reports & Hreports & Hall).
    destruct Hsent as [Hsent|[error Hsent]]; rewrite Hreports, Hsent.
    + by exists reports.
    + exists (failure_message error :: reports).
      rewrite <- app_assoc. split; [reflexivity|]. constructor; eauto.
  - destruct Hsent as [Hsent|[error Hsent]]; rewrite Hsent.
    + exists []. split; [symmetry; apply app_nil_r | constructor].
    + exists [failure_message error]. split; [reflexivity|].
      constructor; eauto.
Qed.

Lemma iteration_quiet_or_sends bot st w :
  let '(r, st', w') := iteration bot st w in
  (r = Ok tt ∧ error_message st' = error_message st ∧
   sent_texts w' = sent_texts w) ∨
  (∃ message, sent_texts w' = (sent_texts w ++ [message])%list).
Proof.
  destruct (iteration_eq bot st w) as (e & st1 & -> & _ & He).
  rewrite handled_eq. cbv zeta.
  destruct (String.eqb _ _); [|destruct (bot_send_message _ _)];
    rewrite sent_texts_slept, ?sent_texts_delivered, ?sent_texts_undelivered,
      sent_texts_logged, sent_texts_requested; eauto.
Qed.

Lemma while_true_silent bot fuel :
  ∀ st w st' w',
    while_true fuel bot st w = (Ok tt, st', w') →
    sent_texts w' = sent_texts w →
    error_message st' = error_message st.
Proof.
  induction fuel as [|fuel IH]; intros st w st' w' Hloop Hsilent.
  { injection Hloop as <- _. reflexivity. }
  rewrite while_true_step in Hloop.
  pose proof (iteration_quiet_or_sends bot st w) as Hit.
  destruct (iteration bot st w) as [[[[]|e] st1] w1]; [|discriminate Hloop].
  destruct (while_true_sends bot fuel st1 w1) as (reports & Hreports & _).
  rewrite Hloop in Hreports. cbn [snd] in Hreports.
  destruct Hit as [(_ & He & Hsame)|[message Hsent]].
  - rewrite <- He. apply (IH _ _ _ _ Hloop). congruence.
  - rewrite Hreports, Hsent, <- app_assoc in Hsilent.
    apply (f_equal length) in Hsilent. rewrite !length_app in Hsilent.
    cbn in Hsilent. lia.
Qed.

(** C10 (amended).  The last error message keeps its value through every
    run of cycles in which no message is sent.  So once the report of an
    error with the description D is the last error message, a cycle that
    fails with the description D after such a run sends nothing and leaves
    the last error message as it is. *)
Theorem error_report_not_repeated_without_other_report
    bot error fuel st w st' w' error' st1 w1 :
  error_message st = failure_message error →
  while_true fuel bot st w = (Ok tt, st', w') →
  sent_texts w' = sent_texts w →
  try_block bot st' w' = (Err error', st1, w1) →
  description error' = description error →
  error_message st' = error_message st ∧
  ∃ w'',
    iteration bot st' w' = (Ok tt, st1, w'') ∧
    sent_texts w'' = sent_texts w' ∧
    error_message st1 = error_message st.
Proof.
  intros Hlast Hloop Hsilent Htry Hsame.
  pose proof (while_true_silent _ _ _ _ _ _ Hloop Hsilent) as Hkept.
  split; [exact Hkept|].
  destruct (poll_raises st' w') as (e & st0 & w0 & Hpoll & _ & _ & Herr & _).
  pose proof (poll_world _ _ _ _ _ Hpoll) as ->.
  rewrite (try_block_of_poll bot _ _ _ _ _ Hpoll) in Htry. simplify_eq.
  rewrite (iteration_handled _ _ _ _ _ _ (try_block_of_poll bot _ _ _ _ _ Hpoll)).
  rewrite handled_eq. cbv zeta.
  rewrite Herr, Hkept, Hlast. unfold failure_message at 1. rewrite Hsame.
  fold (failure_message error). rewrite String.eqb_refl.
  eexists. split; [reflexivity|]. split; [|congruence].
  rewrite sent_texts_slept, sent_texts_logged. apply sent_texts_requested.
Qed.

(** X23.  While every message is delivered nothing stops the loop: each of
    its iterations ends without an exception and has made its request. *)
Theorem loop_goes_on_while_delivered bot fuel :
  ∀ st w,
    (∀ k, bot_send_message w k = true) →
    ∃ st' w',
      while_true fuel bot st w = (Ok tt, st', w') ∧
      requests_made w' = (fuel + requests_made w)%nat.
Proof.
  induction fuel as [|fuel IH]; intros st w Hall; [by eauto|].
  rewrite while_true_step.
  destruct (iteration_eq bot st w) as (e & st1 & -> & _).
  rewrite handled_eq. cbv zeta.
  rewrite (proj1 (oracles_requested _ _)), Hall.
  destruct (String.eqb _ _).
  - edestruct IH as (st' & w' & -> & Hreq).
    { intros k. cbn. rewrite (proj1 (oracles_requested _ _)). apply Hall. }
    exists st', w'. split; [reflexivity|]. rewrite Hreq. cbn.
    rewrite requests_made_requested. lia.
  - edestruct IH as (st' & w' & -> & Hreq).
    { intros k. cbn. rewrite (proj1 (oracles_requested _ _)). apply Hall. }
    exists st', w'. split; [reflexivity|]. rewrite Hreq. cbn.
    rewrite requests_made_requested. lia.
Qed.

Lemma iteration_request_fails bot st w error :
  requests_get w (requests_made w) = RequestException error →
  iteration bot st w =
    handled bot (api_error error) st (requested (current_timestamp st) w).
Proof.
  intros Hget. apply iteration_handled, try_block_of_poll.
  rewrite poll_eq, Hget. reflexivity.
Qed.

Lemma while_true_same_failure bot error fuel :
  ∀ st w,
    (∀ k, requests_get w k = RequestException error) →
    error_message st = failure_message (api_error error) →
    ∃ st' w',
      while_true fuel bot st w = (Ok tt, st', w') ∧
      sent_texts w' = sent_texts w.
Proof.
  induction fuel as [|fuel IH]; intros st w Hall Hlast; [by eauto|].
  rewrite while_true_step, (iteration_request_fails _ _ _ _ (Hall _)).
  rewrite handled_eq. cbv zeta. rewrite Hlast, String.eqb_refl.
  edestruct IH as (st' & w' & -> & Hsent).
  { intros k. cbn. rewrite (proj2 (oracles_requested _ _)). apply Hall. }
  { exact Hlast. }
  exists st', w'. split; [reflexivity|].
  rewrite Hsent, sent_texts_slept, sent_texts_logged. apply sent_texts_requested.
Qed.

(** X24.  When every request fails in the same way, the loop reports the
    failure once, in its first iteration, and then stays silent for as many
    iterations as follow. *)
Theorem repeated_failure_reported_once bot st w error fuel :
  (∀ k, requests_get w k = RequestException error) →
  failure_message (api_error error) ≠ error_message st →
  bot_send_message w (sends_made w) = true →
  ∃ st' w',
    while_true (S fuel) bot st w = (Ok tt, st', w') ∧
    sent_texts w' =
      (sent_texts w ++ [failure_message (api_error error)])%list.
Proof.
  intros Hall Hnew Hsend.
  rewrite while_true_step, (iteration_request_fails _ _ _ _ (Hall _)).
  rewrite handled_eq. cbv zeta.
  rewrite (eqb_false_of_ne _ _ Hnew), (proj1 (oracles_requested _ _)),
    sends_made_requested, Hsend.
  edestruct (while_true_same_failure bot error fuel) as (st' & w' & -> & Hsent).
  { intros k. cbn. rewrite (proj2 (oracles_requested _ _)). apply Hall. }
  { reflexivity. }
  exists st', w'. split; [reflexivity|].
  rewrite Hsent, sent_texts_slept, sent_texts_delivered, sent_texts_logged,
    sent_texts_requested. reflexivity.
Qed.

(** X25.  [main] ends in three ways only: with [SystemExit(1)], when a
    token is missing; with the error of [telegram.Bot], when the bot is not
    built; and, with the bot built, with [SendMessageException], when the
    start message or a failure report is not delivered. *)
Theorem main_exits fuel w error w' :
  main fuel w = (Err error, w') →
  (check_tokens = false ∧ error = Raise SystemExit "1") ∨
  (check_tokens = true ∧ telegram_Bot = Err error) ∨
  (check_tokens = true ∧ telegram_Bot = Ok tt ∧
   error = send_error).
Proof.
  destruct check_tokens eqn:Htokens; intros H.
  - right. rewrite (main_eq _ _ Htokens) in H.
    destruct (telegram_Bot) as [[]|e]; [right|left].
    + split; [reflexivity|]. split; [reflexivity|].
      destruct (bot_send_message w (sends_made w)); [|by simplify_eq].
      unfold enter_loop in H.
      destruct (while_true _ _ _ _) as [[[[]|e] st1] w1] eqn:Hloop;
        simplify_eq.
      by eapply while_true_error.
    + split; [reflexivity|]. by simplify_eq.
  - left. split; [reflexivity|].
    assert (Hmain : main fuel w =
      (Err (Raise SystemExit "1"), logged CRITICAL "Отсутствуют токены" w)).
    { unfold main. rewrite Htokens. reflexivity. }
    rewrite Hmain in H. by simplify_eq.
Qed.

(** X26.  With its tokens set and the bot built, [main] first sends the
    start message, and every message after it is a failure report: the bot
    never sends a status. *)
Theorem main_sends_start_then_reports fuel w :
  check_tokens = true →
  telegram_Bot = Ok tt →
  ∃ reports,
    sent_texts (main fuel w).2 =
      (sent_texts w ++ start_message :: reports)%list ∧
    Forall (λ text, ∃ error, text = failure_message error) reports.
Proof.
  intros Htokens Hbot. rewrite (main_eq _ _ Htokens), Hbot.
  destruct (bot_send_message w (sends_made w)).
  - unfold enter_loop.
    destruct (while_true_sends tt fuel
                (Locals (JInt (time_time w (clock_reads w))) "" "")
                (tick_clock (delivered start_message w)))
      as (reports & Hsent & Hall).
    destruct (while_true _ _ _ _) as [[r st1] w1]. cbn [snd] in *.
    exists reports. split; [|exact Hall].
    rewrite Hsent.
    change (sent_texts (tick_clock (delivered start_message w)))
      with (sent_texts (delivered start_message w)).
    rewrite sent_texts_delivered, <- app_assoc. reflexivity.
  - exists []. split; [|constructor]. cbn [snd].
    apply sent_texts_undelivered.
Qed.

Lemma from_dates_tick_send w : from_dates (tick_send w) = from_dates w.
Proof. reflexivity. Qed.

Lemma from_dates_logged level text w : from_dates (logged level text w) = from_dates w.
Proof. unfold logged. rewrite from_dates_emit. apply app_nil_r. Qed.

Lemma from_dates_slept w : from_dates (slept w) = from_dates w.
Proof. unfold slept. rewrite from_dates_emit. apply app_nil_r. Qed.

Lemma from_dates_delivered message w :
  from_dates (delivered message w) = from_dates w.
Proof.
  unfold delivered. rewrite from_dates_logged, from_dates_emit,
    from_dates_tick_send, from_dates_logged. apply app_nil_r.
Qed.

Lemma from_dates_undelivered message w :
  from_dates (undelivered message w) = from_dates w.
Proof.
  unfold undelivered. rewrite from_dates_emit, from_dates_tick_send,
    from_dates_logged. apply app_nil_r.
Qed.

Lemma from_dates_handled bot error st w :
  from_dates (handled bot error st w).2 = from_dates w.
Proof.
  rewrite handled_eq. cbv zeta.
  destruct (String.eqb _ _); [|destruct (bot_send_message _ _)]; cbn [snd];
    rewrite from_dates_slept, ?from_dates_delivered, ?from_dates_undelivered,
      from_dates_logged; reflexivity.
Qed.

Lemma from_dates_requested ts w :
  from_dates (requested ts w) =
    (from_dates w ++
       [if truthy ts then ts else JInt (time_time w (clock_reads w))])%list.
Proof.
  unfold requested. destruct (truthy ts); rewrite from_dates_emit; reflexivity.
Qed.

Lemma while_true_from_dates bot fuel :
  ∀ st w,
    ∃ more, from_dates (while_true fuel bot st w).2 = (from_dates w ++ more)%list.
Proof.
  induction fuel as [|fuel IH]; intros st w.
  { exists []. symmetry. apply app_nil_r. }
  rewrite while_true_step.
  destruct (iteration_eq bot st w) as (e & st1 & Hit & _).
  pose proof (from_dates_handled bot e st1
                (requested (current_timestamp st) w)) as Hdates.
  rewrite <- Hit, from_dates_requested in Hdates.
  destruct (iteration bot st w) as [[[[]|e'] st2] w2]; cbn [snd] in *.
  - destruct (IH st2 w2) as (more & ->). rewrite Hdates, <- app_assoc. eauto.
  - rewrite Hdates. eauto.
Qed.

(** X27.  With the bot built, the first request of [main] asks for what has
    changed since the time read after the start message was delivered (a
    time that counts as true, so not 0). *)
Theorem main_first_request fuel w :
  check_tokens = true →
  telegram_Bot = Ok tt →
  bot_send_message w (sends_made w) = true →
  time_time w (clock_reads w) ≠ 0 →
  ∃ later,
    from_dates (main (S fuel) w).2 =
      (from_dates w ++ JInt (time_time w (clock_reads w)) :: later)%list.
Proof.
  intros Htokens Hbot Hsend Hnow. rewrite (main_eq _ _ Htokens), Hbot, Hsend.
  unfold enter_loop.
  set (st := Locals (JInt (time_time w (clock_reads w))) "" "").
  set (w1 := tick_clock (delivered start_message w)).
  rewrite while_true_step.
  destruct (iteration_eq tt st w1) as (e & st1 & Hit & _).
  pose proof (from_dates_handled tt e st1
                (requested (current_timestamp st) w1)) as Hdates.
  rewrite <- Hit, from_dates_requested in Hdates.
  assert (Htrue : truthy (current_timestamp st) = true).
  { cbn. by apply negb_true_iff, Z.eqb_neq. }
  rewrite Htrue in Hdates.
  assert (Hw1 : from_dates w1 = from_dates w).
  { change (from_dates w1) with (from_dates (delivered start_message w)).
    apply from_dates_delivered. }
  rewrite Hw1 in Hdates.
  destruct (iteration tt st w1) as [[[[]|e'] st2] w2]; cbn [snd] in *.
  - destruct (while_true_from_dates tt fuel st2 w2) as (more & Hmore).
    destruct (while_true fuel tt st2 w2) as [[r st3] w3]. cbn [snd] in *.
    exists more. rewrite Hmore, Hdates, <- app_assoc. reflexivity.
  - exists []. exact Hdates.
Qed.

End Bot.

(** ** The theorems at concrete inputs *)

Local Abbreviation practicum := (Some "practicum-token").
Local Abbreviation chat := (Some "chat-id").
Local Abbreviation cycle := (iteration no_repr practicum chat tt).
Local Abbreviation loop := (λ fuel, while_true no_repr practicum chat fuel tt).
Local Abbreviation status_cycle status :=
  (guarded chat tt (report chat tt status)).

(** *** The functions on small inputs *)

Example parse_status_pending :
  parse_status no_repr
    (JDict {[ "homework_name" := JStr "hw1"; "status" := JStr "pending" ]}) =
  Err (Raise PyException "Неизвестный статус работы: pending").
Proof. vm_compute. reflexivity. Qed.

Example parse_status_without_name :
  parse_status no_repr (JDict {[ "status" := JStr "approved" ]}) =
  Err missing_name_error.
Proof. vm_compute. reflexivity. Qed.

Example parse_status_without_status :
  parse_status no_repr (JDict {[ "homework_name" := JStr "hw1" ]}) =
  Err missing_status_error.
Proof. vm_compute. reflexivity. Qed.

Example check_response_first_is_None :
  check_response no_repr (JDict {[ "homeworks" := JList [JNull; record_hw1] ]}) =
  Err no_homework_error.
Proof. vm_compute. reflexivity. Qed.

Example check_response_first_is_number :
  check_response no_repr (JDict {[ "homeworks" := JList [JInt 3] ]}) =
  Err (Raise TypeError "Ошибка типа данных! <list> не словарь!").
Proof. vm_compute. reflexivity. Qed.

Example check_response_of_a_list :
  check_response no_repr (JList []) =
  Err (Raise TypeError "list indices must be integers or slices, not str").
Proof. vm_compute. reflexivity. Qed.

Example main_without_token :
  main no_repr practicum None chat bot_built 2 world_hw1 =
  (Err (Raise SystemExit "1"),
   logged CRITICAL "Отсутствуют токены" world_hw1).
Proof. vm_compute. reflexivity. Qed.

Example main_start_message_lost :
  let '(r, w') := main no_repr practicum (Some "bot-token") chat bot_built 2 world_down in
  r = Err send_error ∧ sent_texts w' = [start_message] ∧
  requests_made w' = 0%nat.
Proof. vm_compute. repeat split. Qed.

Example main_token_refused :
  main no_repr practicum (Some "bot token") chat token_refused 2 world_hw1 =
  (Err (Raise InvalidToken "Invalid token"), world_hw1).
Proof. vm_compute. reflexivity. Qed.

Example main_two_cycles_hw1 :
  let '(r, w') := main no_repr practicum (Some "bot-token") chat bot_built 2 world_hw1 in
  r = Ok tt ∧
  sent_texts w' = [start_message; failure_message missing_name_error] ∧
  from_dates w' = [JInt 5000; JInt 1000].
Proof. vm_compute. repeat split. Qed.

(** *** The theorems of the cycle *)

Lemma hw1_cycle_witness :
  check_response no_repr payload_hw1 = Ok (JList [record_hw1]) ∧
  parse_status no_repr record_hw1 = Ok hw1_text ∧
  ∃ r st' w', cycle (started 900) world_hw1 = (r, st', w') ∧
              current_timestamp st' = JInt 1000.
Proof.
  apply (hw1_cycle no_repr practicum chat tt (started 900) world_hw1).
  reflexivity.
Defined.

(** C1, as stated, fails: the cycle on the payload of [hw1] hands the whole
    list to [parse_status]; the only message it sends is the report of the
    [KeyError], so the expected text is not sent once. *)
Lemma hw1_cycle_sends_failure_report :
  let '(_, st', w') := cycle (started 900) world_hw1 in
  sent_texts w' = [failure_message missing_name_error] ∧
  ¬ (count_occ String.string_dec (sent_texts w') hw1_text_expected = 1%nat ∧
     current_timestamp st' = JInt 1000).
Proof.
  vm_compute. split; [reflexivity|]. intros [H _]. discriminate H.
Qed.

Lemma failed_error_report_leaves_loop_witness :
  cycle (started 5000) world_down =
    (Err send_error, started 5000,
     slept (undelivered chat (failure_message (api_error "timed out"))
              (logged ERROR (description (api_error "timed out"))
                 (requested practicum (JInt 5000) world_down)))) ∧
  loop 2%nat (started 5000) world_down = cycle (started 5000) world_down.
Proof.
  apply (failed_error_report_leaves_loop no_repr practicum chat tt
           (started 5000) world_down (api_error "timed out") (started 5000)
           (requested practicum (JInt 5000) world_down) 1%nat).
  - vm_compute. reflexivity.
  - vm_compute. discriminate.
  - reflexivity.
Defined.

(** C2, as stated, fails: with the network down the report of the fetch
    error is not delivered, the loop is left with the
    [SendMessageException] and a second request is never made. *)
Lemma undelivered_error_report_ends_loop :
  let '(r, _, w') := loop 2%nat (started 5000) world_down in
  r = Err send_error ∧ r ≠ Ok tt ∧ requests_made w' = 1%nat.
Proof.
  vm_compute. split; [reflexivity|]. split; [discriminate|reflexivity].
Qed.

Lemma undated_payload_resets_cursor_witness :
  ∃ r st' w',
    cycle (started 1000) world_undated = (r, st', w') ∧
    current_timestamp st' = JNull ∧
    ∀ w2, get_api_answer practicum (current_timestamp st') w2 =
            (answer (requests_get w2 (requests_made w2)),
             emit (EGet ENDPOINT ("OAuth " ++ token_str practicum)
                        (JInt (time_time w2 (clock_reads w2))))
                  (tick_request (tick_clock w2))).
Proof.
  apply (undated_payload_resets_cursor no_repr practicum chat tt
           (started 1000) world_undated {[ "homeworks" := JList [record_hw1] ]}).
  - reflexivity.
  - vm_compute. reflexivity.
Defined.

(** C3, as stated, fails: the first request asks from 1000; its payload has
    no [current_date]; the second request asks from 2000, the time then. *)
Lemma undated_payload_moves_cursor :
  let '(_, _, w') := loop 2%nat (started 1000) world_undated in
  from_dates w' = [JInt 1000; JInt 2000] ∧
  ¬ (∃ cursor, from_dates w' = [cursor; cursor]).
Proof.
  vm_compute. split; [reflexivity|]. intros [cursor H]. congruence.
Qed.

Lemma check_response_without_homeworks_witness :
  check_response no_repr (JDict ∅) = Err (Raise KeyError "'homeworks'") ∧
  check_response no_repr (JDict ∅) ≠ Err missing_homeworks_error.
Proof.
  apply (check_response_without_homeworks no_repr ∅). vm_compute. reflexivity.
Defined.

Lemma check_response_empty_homeworks_witness :
  check_response no_repr (JDict {[ "homeworks" := JList [] ]}) =
    Err empty_list_error.
Proof.
  apply (check_response_empty_homeworks no_repr {[ "homeworks" := JList [] ]}).
  vm_compute. reflexivity.
Defined.

Lemma status_recorded_when_delivered_witness :
  report chat tt hw1_text (started 900) world_first_lost =
    (Err send_error, started 900, undelivered chat hw1_text world_first_lost) ∧
  ∃ r st' w',
    status_cycle hw1_text (started 900) world_first_lost = (r, st', w') ∧
    In (ESend chat hw1_text false) (events w') ∧
    status_message st' = "".
Proof.
  apply (status_recorded_when_delivered chat tt hw1_text (started 900)
           world_first_lost).
  vm_compute. discriminate.
Defined.

(** C5, as stated, fails: the candidate is new and its delivery fails; the
    report of that failure is delivered, and the last status message is
    still empty, not the candidate. *)
Lemma lost_status_not_recorded :
  let '(r, st', w') := status_cycle hw1_text (started 900) world_first_lost in
  r = Ok tt ∧
  sent_texts w' = [hw1_text; failure_message send_error] ∧
  hw1_text ≠ status_message (started 900) ∧
  status_message st' ≠ hw1_text.
Proof.
  vm_compute. repeat split; discriminate.
Qed.

Lemma status_sent_once_when_delivered_witness :
  status_cycle hw1_text (started 900) world_hw1 =
    (Ok tt, set_status_message hw1_text (started 900),
     slept (delivered chat hw1_text world_hw1)) ∧
  ∀ ts w2,
    status_cycle hw1_text
      (set_current_timestamp ts (set_status_message hw1_text (started 900))) w2 =
      (Ok tt, set_current_timestamp ts (set_status_message hw1_text (started 900)),
       slept (logged DEBUG unchanged_info w2)).
Proof.
  apply (status_sent_once_when_delivered chat tt hw1_text (started 900)
           world_hw1).
  - vm_compute. discriminate.
  - reflexivity.
Defined.

(** C6, as stated, fails: two consecutive cycles come to the same candidate;
    the first delivery fails (its report is delivered), so the second cycle
    calls [send_message] with the candidate again: two calls, not one. *)
Lemma lost_status_sent_twice :
  let '(r, _, w') :=
    (status_cycle hw1_text ;; status_cycle hw1_text)
      (started 900) world_second_kept in
  r = Ok tt ∧
  count_occ String.string_dec (sent_texts w') hw1_text = 2%nat.
Proof.
  vm_compute. split; reflexivity.
Qed.

Lemma error_reported_once_witness :
  ∃ r st' w',
    cycle (started 900) world_hw1 = (r, st', w') ∧
    sent_texts w' =
      (sent_texts (requested practicum (JInt 900) world_hw1)
         ++ [failure_message missing_name_error])%list ∧
    (r = Ok tt →
     ∀ error2 st2 w2,
       try_block no_repr practicum chat tt st' w' = (Err error2, st2, w2) →
       description error2 = description missing_name_error →
       cycle st' w' =
         (Ok tt, st2, slept (logged ERROR (description error2) w2))).
Proof.
  apply (error_reported_once no_repr practicum chat tt (started 900) world_hw1
           missing_name_error (set_current_timestamp (JInt 1000) (started 900))
           (requested practicum (JInt 900) world_hw1)).
  - vm_compute. reflexivity.
  - vm_compute. discriminate.
Defined.

Lemma transport_failure_cycle_witness :
  cycle (started 5000) world_offline =
    (Ok tt,
     set_error_message (failure_message (api_error "timed out")) (started 5000),
     slept (delivered chat (failure_message (api_error "timed out"))
              (logged ERROR (description (api_error "timed out"))
                 (requested practicum (JInt 5000) world_offline)))) ∧
  loop 2%nat (started 5000) world_offline =
    match cycle (started 5000) world_offline with
    | (Ok _, st', w') => loop 1%nat st' w'
    | (Err e, st', w') => (Err e, st', w')
    end.
Proof.
  apply (transport_failure_cycle no_repr practicum chat tt (started 5000)
           world_offline "timed out" 1%nat).
  reflexivity.
Defined.

(** C9, as stated, fails: [requests.get] raises and the report of it is not
    delivered either; the loop is left after one request. *)
Lemma transport_failure_ends_loop :
  let '(r, _, w') := loop 3%nat (started 7000) world_refused in
  r = Err send_error ∧ r ≠ Ok tt ∧
  requests_made w' = 1%nat ∧
  events w' =
    [ESleep RETRY_TIME;
     ESend chat (failure_message (api_error "Connection refused")) false;
     ELog INFO "Попытка отправки сообщения";
     ELog ERROR (description (api_error "Connection refused"));
     EGet ENDPOINT "OAuth practicum-token" (JInt 7000)].
Proof.
  vm_compute. repeat split; discriminate.
Qed.

Lemma error_report_not_repeated_without_other_report_witness :
  let st := Locals (JInt 5000) "" (failure_message (api_error "timed out")) in
  let st' := (loop 2%nat st world_down).1.2 in
  let w' := (loop 2%nat st world_down).2 in
  error_message st' = error_message st ∧
  ∃ w'',
    cycle st' w' = (Ok tt, (try_block no_repr practicum chat tt st' w').1.2, w'') ∧
    sent_texts w'' = sent_texts w' ∧
    error_message (try_block no_repr practicum chat tt st' w').1.2 =
      error_message st.
Proof.
  apply (error_report_not_repeated_without_other_report no_repr practicum chat
           tt (api_error "timed out") 2%nat
           (Locals (JInt 5000) "" (failure_message (api_error "timed out")))
           world_down _ _ (api_error "timed out") _
           (try_block no_repr practicum chat tt
              (loop 2%nat
                 (Locals (JInt 5000) "" (failure_message (api_error "timed out")))
                 world_down).1.2
              (loop 2%nat
                 (Locals (JInt 5000) "" (failure_message (api_error "timed out")))
                 world_down).2).2).
  - reflexivity.
  - vm_compute. reflexivity.
  - vm_compute. reflexivity.
  - vm_compute. reflexivity.
  - reflexivity.
Defined.

(** C10, as stated, fails: the report of the first time-out is delivered;
    the second cycle fails with another description and its report is
    delivered too; the third cycle fails with the description of the first
    again, and its report is sent a second time. *)
Lemma same_error_reported_again_after_another :
  let '(r, _, w') := loop 3%nat (started 5000) world_alternating in
  r = Ok tt ∧
  sent_texts w' =
    [failure_message (api_error "timed out");
     failure_message (api_error "Connection refused");
     failure_message (api_error "timed out")] ∧
  count_occ String.string_dec (sent_texts w')
    (failure_message (api_error "timed out")) = 2%nat.
Proof.
  vm_compute. repeat split.
Qed.

(** *** The further theorems at concrete inputs *)

Local Abbreviation bot_token := (Some "bot-token").

Lemma check_response_inspects_first_witness :
  check_response no_repr
    (JDict {[ "homeworks" := JList [JNull; record_hw1; JInt 7] ]}) =
  Err no_homework_error.
Proof.
  apply (check_response_inspects_first no_repr
           {[ "homeworks" := JList [JNull; record_hw1; JInt 7] ]}
           JNull [record_hw1; JInt 7]).
  vm_compute. reflexivity.
Defined.

Lemma check_response_not_a_dict_witness :
  ∃ text,
    check_response no_repr (JList []) = Err (Raise TypeError text) ∧
    Raise TypeError text ≠ empty_list_error ∧
    Raise TypeError text ≠ missing_homeworks_error ∧
    Raise TypeError text ≠ no_homework_error ∧
    ∀ homework, Raise TypeError text ≠ not_a_dict_error no_repr homework.
Proof.
  apply (check_response_not_a_dict no_repr (JList [])). reflexivity.
Defined.

Lemma parse_status_missing_name_witness :
  parse_status no_repr (JDict {[ "status" := JStr "pending" ]}) =
  Err missing_name_error.
Proof.
  apply (parse_status_missing_name no_repr {[ "status" := JStr "pending" ]}).
  vm_compute. reflexivity.
Defined.

Lemma parse_status_missing_status_witness :
  parse_status no_repr (JDict {[ "homework_name" := JStr "hw1" ]}) =
  Err missing_status_error.
Proof.
  apply (parse_status_missing_status no_repr
           {[ "homework_name" := JStr "hw1" ]} (JStr "hw1")).
  - vm_compute. reflexivity.
  - vm_compute. reflexivity.
Defined.

Lemma parse_status_unknown_status_witness :
  parse_status no_repr
    (JDict {[ "homework_name" := JStr "hw1"; "status" := JStr "pending" ]}) =
  Err (Raise PyException ("Неизвестный статус работы: " ++ "pending")).
Proof.
  apply (parse_status_unknown_status no_repr
           {[ "homework_name" := JStr "hw1"; "status" := JStr "pending" ]}
           (JStr "hw1") "pending").
  - vm_compute. reflexivity.
  - vm_compute. reflexivity.
  - discriminate.
  - discriminate.
  - discriminate.
Defined.

Lemma parse_status_of_records_witness :
  parse_status no_repr (JList [record_hw1; record_hw1]) = Err missing_name_error.
Proof.
  apply (parse_status_of_records no_repr [record_hw1; record_hw1]).
  repeat constructor.
Defined.

Lemma parse_status_of_check_response_records_witness :
  check_response no_repr
    (JDict {[ "homeworks" := JList [record_hw1; record_hw1] ]})
    ≫= parse_status no_repr =
  Err missing_name_error.
Proof.
  apply (parse_status_of_check_response_records no_repr
           {[ "homeworks" := JList [record_hw1; record_hw1] ]}
           {[ "homework_name" := JStr "hw1"; "status" := JStr "approved" ]}
           [record_hw1]).
  - vm_compute. reflexivity.
  - repeat constructor.
Defined.

Lemma get_api_answer_bad_status_witness :
  let w := fresh_world (λ _, 5000) (λ _, Response 404 (Some payload_hw1))
             (λ _, true) in
  get_api_answer practicum (JInt 900) w =
    (Err (Raise PyException ("Ошибка " ++ pretty 404)),
     requested practicum (JInt 900) w).
Proof.
  apply (get_api_answer_bad_status practicum (JInt 900)
           (fresh_world (λ _, 5000) (λ _, Response 404 (Some payload_hw1))
              (λ _, true))
           404 (Some payload_hw1)).
  - reflexivity.
  - discriminate.
Defined.

Lemma main_without_tokens_witness :
  main no_repr practicum (Some "") chat bot_built 2 world_hw1 =
    (Err (Raise SystemExit "1"),
     logged CRITICAL "Отсутствуют токены" world_hw1) ∧
  sent_texts (main no_repr practicum (Some "") chat bot_built 2 world_hw1).2 =
    sent_texts world_hw1 ∧
  requests_made (main no_repr practicum (Some "") chat bot_built 2 world_hw1).2 =
    requests_made world_hw1.
Proof.
  apply (main_without_tokens no_repr practicum (Some "") chat bot_built 2%nat
           world_hw1).
  reflexivity.
Defined.

Lemma main_start_not_delivered_witness :
  main no_repr practicum bot_token chat bot_built 2 world_down =
    (Err send_error, undelivered chat start_message world_down).
Proof.
  apply (main_start_not_delivered no_repr practicum bot_token chat bot_built
           2%nat world_down).
  - reflexivity.
  - reflexivity.
  - reflexivity.
Defined.

Lemma main_bot_not_built_witness :
  main no_repr practicum (Some "bot token") chat token_refused 2 world_hw1 =
    (Err (Raise InvalidToken "Invalid token"), world_hw1).
Proof.
  apply (main_bot_not_built no_repr practicum (Some "bot token") chat token_refused
           2%nat world_hw1).
  - reflexivity.
  - reflexivity.
Defined.

Lemma iteration_moves_cursor_witness :
  current_timestamp (cycle (started 900) world_hw1).1.2 =
    default JNull
      (({[ "homeworks" := JList [record_hw1]; "current_date" := JInt 1000 ]}
          : gmap string json) !! "current_date").
Proof.
  apply (iteration_moves_cursor no_repr practicum chat tt (started 900)
           world_hw1).
  reflexivity.
Defined.

Lemma iteration_keeps_cursor_witness :
  current_timestamp (cycle (started 5000) world_offline).1.2 =
    current_timestamp (started 5000).
Proof.
  apply (iteration_keeps_cursor no_repr practicum chat tt (started 5000)
           world_offline).
  intros d. discriminate.
Defined.

Lemma error_message_is_delivered_report_witness :
  let '(r, st', w') := cycle (started 5000) world_offline in
  error_message st' ≠ error_message (started 5000) ∧
  r = Ok tt ∧
  sent_texts w' = (sent_texts world_offline ++ [error_message st'])%list ∧
  In (ESend chat (error_message st') true) (events w').
Proof.
  pose proof (error_message_is_delivered_report no_repr practicum chat tt
                (started 5000) world_offline) as H.
  destruct (cycle (started 5000) world_offline) as [[r st'] w'] eqn:Hcycle.
  vm_compute in Hcycle. injection Hcycle as <- <- <-.
  assert (Hchanged : error_message
            (Locals (JInt 5000) "" (failure_message (api_error "timed out")))
          ≠ error_message (started 5000)) by (vm_compute; discriminate).
  split; [exact Hchanged | exact (H Hchanged)].
Defined.

Lemma loop_goes_on_while_delivered_witness :
  ∃ st' w',
    loop 3%nat (started 900) world_hw1 = (Ok tt, st', w') ∧
    requests_made w' = (3 + requests_made world_hw1)%nat.
Proof.
  apply (loop_goes_on_while_delivered no_repr practicum chat tt 3
           (started 900) world_hw1).
  intros k. reflexivity.
Defined.

Lemma repeated_failure_reported_once_witness :
  ∃ st' w',
    loop 5%nat (started 5000) world_offline = (Ok tt, st', w') ∧
    sent_texts w' =
      (sent_texts world_offline
         ++ [failure_message (api_error "timed out")])%list.
Proof.
  apply (repeated_failure_reported_once no_repr practicum chat tt
           (started 5000) world_offline "timed out" 4).
  - intros k. reflexivity.
  - vm_compute. discriminate.
  - reflexivity.
Defined.

Lemma main_exits_witness :
  (check_tokens practicum bot_token chat = false ∧
   send_error = Raise SystemExit "1") ∨
  (check_tokens practicum bot_token chat = true ∧
   bot_built = Err send_error) ∨
  (check_tokens practicum bot_token chat = true ∧
   bot_built = Ok tt ∧ send_error = send_error).
Proof.
  apply (main_exits no_repr practicum bot_token chat bot_built 2%nat world_down
           send_error (undelivered chat start_message world_down)).
  vm_compute. reflexivity.
Defined.

Lemma main_sends_start_then_reports_witness :
  ∃ reports,
    sent_texts (main no_repr practicum bot_token chat bot_built 3 world_hw1).2 =
      (sent_texts world_hw1 ++ start_message :: reports)%list ∧
    Forall (λ text, ∃ error, text = failure_message error) reports.
Proof.
  apply (main_sends_start_then_reports no_repr practicum bot_token chat
           bot_built 3%nat world_hw1).
  - reflexivity.
  - reflexivity.
Defined.

Lemma main_first_request_witness :
  ∃ later,
    from_dates (main no_repr practicum bot_token chat bot_built 2 world_hw1).2 =
      (from_dates world_hw1
         ++ JInt (time_time world_hw1 (clock_reads world_hw1)) :: later)%list.
Proof.
  apply (main_first_request no_repr practicum bot_token chat bot_built 1%nat
           world_hw1).
  - reflexivity.
  - reflexivity.
  - reflexivity.
  - discriminate.
Defined.
